(** * Entrepreneur Empire: the derived-value formulas of the view components

  The components under [src/] recompute a handful of numbers from their
  props on every render (loan pricing, share-trading gates, budget
  categories, the auto-investment estimate, portfolio totals) and forward
  user intents to callback props.  This development embeds those
  computations and the click handlers that guard the callbacks.

  Numbers.  A TypeScript [number] is an IEEE double.  Props and state are
  taken to be finite and are modelled as exact rationals ([Q]); rounding
  and overflow are not modelled.  The one expression of the sources that
  can leave the finite numbers, the amortisation quotient of
  [LoanManager], is evaluated in [JsNum.jsnum], which adds the two
  infinities and NaN with the arithmetic JavaScript gives them.
  Equalities between rationals are stated with [==] ([Qeq]). *)

From Stdlib Require Import QArith Qminmax Qpower ZArith List String Bool.
From Stdlib Require Import Lia Lqa Relations Qround.
Import ListNotations.

Open Scope Q_scope.

(** ** Boolean comparisons on rationals *)

Definition Qltb (x y : Q) : bool := negb (Qle_bool y x).
Definition Qgeb (x y : Q) : bool := Qle_bool y x.
Definition Qgtb (x y : Q) : bool := negb (Qle_bool x y).

(** ** JavaScript numbers beyond the finite ones *)

Module JsNum.

Inductive jsnum : Type :=
| Fin (q : Q)
| PInf
| NInf
| NaN.

Definition is_finite (x : jsnum) : bool :=
  match x with Fin _ => true | _ => false end.

(** The infinity carrying the sign of a comparison with zero; a zero
    operand gives NaN ([0 * Infinity], [0 / 0]). *)
Definition signed_inf (c : comparison) : jsnum :=
  match c with Gt => PInf | Lt => NInf | Eq => NaN end.

Definition sub (x y : jsnum) : jsnum :=
  match x, y with
  | NaN, _ | _, NaN => NaN
  | Fin a, Fin b => Fin (a - b)
  | Fin _, PInf => NInf
  | Fin _, NInf => PInf
  | PInf, PInf => NaN
  | NInf, NInf => NaN
  | PInf, _ => PInf
  | NInf, _ => NInf
  end.

Definition mul (x y : jsnum) : jsnum :=
  match x, y with
  | NaN, _ | _, NaN => NaN
  | Fin a, Fin b => Fin (a * b)
  | Fin a, PInf | PInf, Fin a => signed_inf (a ?= 0)
  | Fin a, NInf | NInf, Fin a => signed_inf (0 ?= a)
  | PInf, PInf | NInf, NInf => PInf
  | PInf, NInf | NInf, PInf => NInf
  end.

(** Division.  A finite zero divisor is the positive zero: the only zero
    divisor of the sources is a difference [1 - x] with [x = 1]. *)
Definition div (x y : jsnum) : jsnum :=
  match x, y with
  | NaN, _ | _, NaN => NaN
  | Fin a, Fin b =>
      if Qeq_bool b 0 then signed_inf (a ?= 0) else Fin (a / b)
  | Fin _, _ => Fin 0
  | PInf, Fin b => if Qltb b 0 then NInf else PInf
  | NInf, Fin b => if Qltb b 0 then PInf else NInf
  | _, _ => NaN
  end.

(** [Math.pow] at a finite base and an integer exponent: [0] to a
    negative power is [Infinity] (the zero base of the sources is the sum
    [1 + rate], a positive zero), anything to the power 0 is 1. *)
Definition pow (b : Q) (e : Z) : jsnum :=
  if (e <? 0)%Z && Qeq_bool b 0 then PInf else Fin (b ^ e).

(** [x >= y]; false as soon as an operand is NaN. *)
Definition geb (x y : jsnum) : bool :=
  match x, y with
  | NaN, _ | _, NaN => false
  | Fin a, Fin b => Qgeb a b
  | PInf, _ => true
  | _, NInf => true
  | _, _ => false
  end.

End JsNum.

Import JsNum.

(** ** LoanManager.tsx *)

Module LoanManager.

Inductive LoanType : Type := small | medium | large | emergency.

Definition LoanType_eqb (a b : LoanType) : bool :=
  match a, b with
  | small, small | medium, medium | large, large
  | emergency, emergency => true
  | _, _ => false
  end.

Record LoanOffer : Type := {
  type : LoanType;
  name : string;
  description : string;
  minAmount : Q;
  maxAmount : Q;
  baseInterestRate : Q;
  termMonths : Z;
  creditScoreRequired : Q
}.

(** The props the calculator reads and the two pieces of component
    state. *)
Record Props : Type := {
  loanOffers : list LoanOffer;
  creditScore : Q;
  currentCash : Q;
  onTakeLoan : LoanType -> Q -> bool
}.

Record State : Type := {
  selectedLoanType : LoanType;
  loanAmount : Q
}.

(** [useState('small')], [useState(1000)]. *)
Definition initialState : State :=
  {| selectedLoanType := small; loanAmount := 1000 |}.

(** [loanOffers.find(o => o.type === selectedLoanType)] *)
Definition selectedOffer (p : Props) (s : State) : option LoanOffer :=
  find (fun o => LoanType_eqb (type o) (selectedLoanType s)) (loanOffers p).

(** [Math.max(0.5, Math.min(2, (850 - creditScore) / 350))] *)
Definition creditMultiplier (creditScore : Q) : Q :=
  Qmax 0.5 (Qmin 2 ((850 - creditScore) / 350)).

Definition adjustedInterestRate (offer : option LoanOffer)
    (creditScore : Q) : Q :=
  match offer with
  | None => 0
  | Some o => baseInterestRate o * (1 + creditMultiplier creditScore * 0.5)
  end.

(** [loanAmount * rate / (1 - Math.pow(1 + rate, -termMonths))] with
    [rate = adjustedInterestRate / 12].  The sum, the power and the
    difference are taken exactly here.  In doubles [1 + rate] is rounded,
    so at rates near the rounding unit the code's divisor loses its
    digits, down to zero: what is proved of this function below is either
    about which expression is evaluated or about the rate zero, where
    nothing is rounded. *)
Definition monthlyPayment (offer : option LoanOffer) (creditScore : Q)
    (loanAmount : Q) : jsnum :=
  match offer with
  | None => Fin 0
  | Some o =>
      let rate := adjustedInterestRate offer creditScore / 12 in
      div (mul (Fin loanAmount) (Fin rate))
          (sub (Fin 1) (pow (1 + rate) (- termMonths o)))
  end.


Definition canQualify (offer : option LoanOffer) (creditScore : Q) : bool :=
  match offer with
  | None => false
  | Some o => Qgeb creditScore (creditScoreRequired o)
  end.

(** What a call of a handler leaves behind: the callback invocations it
    made, the next component state and the value it returned to its
    caller.  [handleTakeLoan] has no [return] statement. *)
Inductive jsret : Type :=
| Undefined
| Str (s : string).

Record Outcome : Type := {
  calls : list (LoanType * Q);
  next : State;
  returned : jsret
}.

Definition handleTakeLoan (p : Props) (s : State) : Outcome :=
  match selectedOffer p s with
  | Some o =>
      if canQualify (Some o) (creditScore p)
         && Qgeb (loanAmount s) (minAmount o)
         && Qle_bool (loanAmount s) (maxAmount o)
      then
        let success := onTakeLoan p (selectedLoanType s) (loanAmount s) in
        {| calls := [(selectedLoanType s, loanAmount s)];
           next := if success
                   then {| selectedLoanType := selectedLoanType s;
                           loanAmount := minAmount o |}
                   else s;
           returned := Undefined |}
      else {| calls := []; next := s; returned := Undefined |}
  | None => {| calls := []; next := s; returned := Undefined |}
  end.

(** The formulas as the specification words them. *)
Definition clamp (x lo hi : Q) : Q :=
  if Qltb x lo then lo else if Qltb hi x then hi else x.




End LoanManager.

(** ** Buttons and the intents they forward *)

Module Ui.

(** A user intent as a card forwards it to its callback props:
    [onBuyShares(id, percentage)], [onSellShares(id, percentage)],
    [onUpgrade(id)]. *)
Inductive Intent : Type :=
| BuyShares (id : string) (percentage : Q)
| SellShares (id : string) (percentage : Q)
| Upgrade (id : string).

(** A rendered [<Button>]: its [disabled] attribute and what its
    [onClick] forwards.  A disabled button swallows the click. *)
Record Button : Type := {
  disabled : bool;
  onClick : Intent
}.

Definition click (b : Button) : option Intent :=
  if disabled b then None else Some (onClick b).

Definition clicks (bs : list Button) : list Intent :=
  flat_map (fun b => match click b with Some i => [i] | None => [] end) bs.



End Ui.

(** ** CompanyCard.tsx *)

Module CompanyCard.
Import Ui.

Record Company : Type := {
  id : string;
  name : string;
  industry : string;
  icon : string;
  level : Z;
  marketValue : Q;
  currentIncome : Q;
  sharesOwned : Q;
  upgradeCost : Q;
  moviesProduced : option Z;
  totalBoxOfficeEarnings : option Q
}.

Record Props : Type := {
  company : Company;
  canAffordUpgrade : bool
}.

Definition incomePerSecond (c : Company) : Q :=
  currentIncome c * (sharesOwned c / 100).

Definition sharesBuyable (c : Company) : Q := 100 - sharesOwned c.

Definition upgradeButton (p : Props) : Button :=
  {| disabled := negb (canAffordUpgrade p);
     onClick := Upgrade (id (company p)) |}.

(** [{sharesBuyable > 0 && [5, 10, 20].map(percentage => <Button
    disabled={sharesBuyable < percentage} .../>)}] *)
Definition buyButtons (c : Company) : list Button :=
  if Qgtb (sharesBuyable c) 0 then
    map (fun percentage =>
           {| disabled := Qltb (sharesBuyable c) percentage;
              onClick := BuyShares (id c) percentage |})
        [5; 10; 20]
  else [].

(** [{company.sharesOwned > 0 && [5, 10, 20].map(percentage => <Button
    disabled={company.sharesOwned < percentage} .../>)}] *)
Definition sellButtons (c : Company) : list Button :=
  if Qgtb (sharesOwned c) 0 then
    map (fun percentage =>
           {| disabled := Qltb (sharesOwned c) percentage;
              onClick := SellShares (id c) percentage |})
        [5; 10; 20]
  else [].

Definition buttons (p : Props) : list Button :=
  upgradeButton p :: buyButtons (company p) ++ sellButtons (company p).

End CompanyCard.

(** ** RealCompaniesModal.tsx (the modal and [RealCompanyCard]) *)

Module RealCompaniesModal.
Import Ui.

Record RealCompany : Type := {
  id : string;
  name : string;
  industry : string;
  description : string;
  marketValue : Q;
  currentIncome : Q;
  sharesOwned : Q;
  volatility : Q
}.

Record Props : Type := {
  realCompanies : list RealCompany;
  currentCash : Q
}.

Inductive Tab : Type := all | owned.

Definition ownedCompanies (realCompanies : list RealCompany)
    : list RealCompany :=
  filter (fun company => Qgtb (sharesOwned company) 0) realCompanies.

Definition availableCompanies (realCompanies : list RealCompany)
    : list RealCompany :=
  filter (fun company => Qltb (sharesOwned company) 100) realCompanies.

(** [ownedCompanies.reduce((total, company) => total + ..., 0)] *)
Definition portfolioValue (realCompanies : list RealCompany) : Q :=
  fold_left
    (fun total company =>
       total + (marketValue company * sharesOwned company / 100))
    (ownedCompanies realCompanies) 0.

Definition totalShares (realCompanies : list RealCompany) : Q :=
  fold_left (fun total company => total + sharesOwned company)
    (ownedCompanies realCompanies) 0.

Definition dailyIncome (realCompanies : list RealCompany) : Q :=
  fold_left
    (fun total company =>
       total + (currentIncome company * sharesOwned company / 100 * 86400))
    (ownedCompanies realCompanies) 0.

(** The props of one [<RealCompanyCard>] as the modal writes them.  The
    modal hands [currentCash] down; the card's own props interface does
    not declare it and the card never reads it. *)
Record CardProps : Type := {
  company : RealCompany;
  cash : Q
}.

Definition incomePerSecond (c : RealCompany) : Q :=
  currentIncome c * (sharesOwned c / 100).

Definition sharesBuyable (c : RealCompany) : Q := 100 - sharesOwned c.

(** The one cost the card shows: [company.marketValue * 0.01] per 1%. *)
Definition costPerPercent (c : RealCompany) : Q := marketValue c * 0.01.

(** [{sharesBuyable > 0 && [1, 5, 10].filter(p => p <= sharesBuyable)
    .map(percentage => <Button .../>)}] *)
Definition buyButtons (p : CardProps) : list Button :=
  let c := company p in
  if Qgtb (sharesBuyable c) 0 then
    map (fun percentage =>
           {| disabled := false; onClick := BuyShares (id c) percentage |})
        (filter (fun p => Qle_bool p (sharesBuyable c)) [1; 5; 10])
  else [].

(** [{company.sharesOwned > 0 && [1, 5, 10].filter(p => p <=
    company.sharesOwned).map(percentage => <Button .../>)}] *)
Definition sellButtons (p : CardProps) : list Button :=
  let c := company p in
  if Qgtb (sharesOwned c) 0 then
    map (fun percentage =>
           {| disabled := false; onClick := SellShares (id c) percentage |})
        (filter (fun p => Qle_bool p (sharesOwned c)) [1; 5; 10])
  else [].


(** The cards of the selected tab (the modal lays them out grouped by
    industry, which permutes this list and nothing more). *)
Definition cards (p : Props) (selectedTab : Tab) : list CardProps :=
  map (fun c => {| company := c; cash := currentCash p |})
      (match selectedTab with
       | owned => ownedCompanies (realCompanies p)
       | all => availableCompanies (realCompanies p)
       end).

(** The aggregation as one would write it on paper: a sum over all the
    companies in which a company without a positive stake counts for
    nothing. *)
Fixpoint spec_sum (f : RealCompany -> Q) (l : list RealCompany) : Q :=
  match l with
  | [] => 0
  | c :: r => (if Qgtb (sharesOwned c) 0 then f c else 0) + spec_sum f r
  end.

End RealCompaniesModal.

(** ** SaveManager.tsx, second component: BoxOfficeManager *)

Module BoxOfficeManager.

Inductive ProjectType : Type := movie | series | documentary.

Definition ProjectType_eqb (a b : ProjectType) : bool :=
  match a, b with
  | movie, movie | series, series | documentary, documentary => true
  | _, _ => false
  end.

Record ProjectTypeInfo : Type := {
  type : ProjectType;
  name : string;
  minBudget : Q;
  maxBudget : Q;
  description : string;
  examples : string
}.

Definition PROJECT_TYPES : list ProjectTypeInfo :=
  [ {| type := movie;
       name := "Feature Film";
       minBudget := 1000000;
       maxBudget := 300000000;
       description :=
         "Big screen blockbusters with highest earning potential";
       examples :=
         "Indie ($1M-10M) • Mid-budget ($10M-75M) • Blockbuster ($100M+)" |};
    {| type := series;
       name := "TV Series";
       minBudget := 500000;
       maxBudget := 20000000;
       description := "Streaming series with steady, reliable returns";
       examples :=
         "Cable TV ($500K-2M) • Premium TV ($5M-10M) • Prestige ($15M+)" |};
    {| type := documentary;
       name := "Documentary";
       minBudget := 100000;
       maxBudget := 5000000;
       description := "Lower budget but critically acclaimed productions";
       examples :=
         "Independent ($100K-500K) • Network ($1M-2M) • Major ($3M+)" |} ].

Record Props : Type := {
  filmCompanies : list CompanyCard.Company;
  currentCash : Q;
  onStartProject : string -> Q -> ProjectType -> bool
}.

Record State : Type := {
  selectedCompanyId : string;
  selectedProjectType : ProjectType;
  budget : Q
}.

(** [useState('')], [useState('movie')], [useState(1000000)], and the
    initialiser that selects the first film company when there is one. *)
Definition initialState (p : Props) : State :=
  {| selectedCompanyId :=
       match filmCompanies p with
       | c :: _ => CompanyCard.id c
       | [] => EmptyString
       end;
     selectedProjectType := movie;
     budget := 1000000 |}.

(** A string in a condition: the empty string is false. *)
Definition truthy (s : string) : bool :=
  match s with EmptyString => false | _ => true end.

(** [filmCompanies.find(c => c.id === selectedCompanyId)] *)
Definition selectedCompany (p : Props) (s : State)
    : option CompanyCard.Company :=
  find (fun c => String.eqb (CompanyCard.id c) (selectedCompanyId s))
       (filmCompanies p).

(** [PROJECT_TYPES.find(p => p.type === selectedProjectType)] *)
Definition selectedProjectTypeInfo (s : State) : option ProjectTypeInfo :=
  find (fun p => ProjectType_eqb (type p) (selectedProjectType s))
       PROJECT_TYPES.

Definition getBudgetCategory (budget : Q) (projectType : ProjectType)
    : string :=
  match projectType with
  | movie =>
      if Qltb budget 10000000 then "Independent"
      else if Qltb budget 75000000 then "Mid-Budget"
      else "Blockbuster"
  | series =>
      if Qltb budget 2000000 then "Cable TV"
      else if Qltb budget 10000000 then "Premium TV"
      else "Prestige Series"
  | documentary =>
      if Qltb budget 500000 then "Independent"
      else if Qltb budget 2000000 then "Network"
      else "Major Production"
  end.

(** [currentCash >= budget] *)
Definition canAffordProject (p : Props) (s : State) : bool :=
  Qgeb (currentCash p) (budget s).

(** What a handler leaves behind: the calls of [onStartProject] it made,
    the next component state and the value it returned.  No handler of
    the dialog has a [return] statement. *)
Record Outcome : Type := {
  calls : list (string * Q * ProjectType);
  next : State;
  returned : LoanManager.jsret
}.

Definition handleStartProject (p : Props) (s : State) : Outcome :=
  match selectedProjectTypeInfo s with
  | Some info =>
      if truthy (selectedCompanyId s) && canAffordProject p s then
        let success :=
          onStartProject p (selectedCompanyId s) (budget s)
                         (selectedProjectType s) in
        {| calls := [(selectedCompanyId s, budget s, selectedProjectType s)];
           next := if success
                   then {| selectedCompanyId := selectedCompanyId s;
                           selectedProjectType := selectedProjectType s;
                           budget := minBudget info |}
                   else s;
           returned := LoanManager.Undefined |}
      else {| calls := []; next := s; returned := LoanManager.Undefined |}
  | None => {| calls := []; next := s; returned := LoanManager.Undefined |}
  end.

(** The face of the start button: ["Start Production (...)"] with the
    budget, or ["Insufficient Funds"]. *)
Inductive StartLabel : Type :=
| StartProduction (budget : Q)
| InsufficientFunds.

Record StartButton : Type := {
  disabled : bool;
  label : StartLabel
}.

(** [<Button onClick={handleStartProject} disabled={!canAffordProject}>]
    and its text, [canAffordProject ? ... : ...]. *)
Definition startButton (p : Props) (s : State) : StartButton :=
  {| disabled := negb (canAffordProject p s);
     label := if canAffordProject p s
              then StartProduction (budget s)
              else InsufficientFunds |}.

(** A press on the start button; a disabled button runs no handler. *)
Definition pressStart (p : Props) (s : State) : Outcome :=
  if disabled (startButton p s)
  then {| calls := []; next := s; returned := LoanManager.Undefined |}
  else handleStartProject p s.

(** What the user can do with the dialog. *)
Inductive Event : Type :=
| ClickCompany (companyId : string)
| ClickProjectType (info : ProjectTypeInfo)
| SlideBudget (value : Q)
| ClickStart.

(** The handlers behind the events: [setSelectedCompanyId(company.id)];
    [setSelectedProjectType(projectType.type)] followed by
    [setBudget(projectType.minBudget)]; [setBudget(value)];
    [handleStartProject]. *)
Definition handle (p : Props) (s : State) (e : Event) : Outcome :=
  match e with
  | ClickCompany companyId =>
      {| calls := [];
         next := {| selectedCompanyId := companyId;
                    selectedProjectType := selectedProjectType s;
                    budget := budget s |};
         returned := LoanManager.Undefined |}
  | ClickProjectType info =>
      {| calls := [];
         next := {| selectedCompanyId := selectedCompanyId s;
                    selectedProjectType := type info;
                    budget := minBudget info |};
         returned := LoanManager.Undefined |}
  | SlideBudget value =>
      {| calls := [];
         next := {| selectedCompanyId := selectedCompanyId s;
                    selectedProjectType := selectedProjectType s;
                    budget := value |};
         returned := LoanManager.Undefined |}
  | ClickStart => handleStartProject p s
  end.

(** Which events the rendered dialog offers in a state: a company tile
    per film company; below it, once the selected company is found, a tile
    per entry of [PROJECT_TYPES], the budget slider with
    [min={minBudget}] and [max={maxBudget}] (the component of
    [./ui/slider] is taken to report positions between its two ends) and
    the start button with [disabled={!canAffordProject}]. *)
Definition offered (p : Props) (s : State) (e : Event) : Prop :=
  match e with
  | ClickCompany companyId =>
      exists c, In c (filmCompanies p) /\ CompanyCard.id c = companyId
  | ClickProjectType info =>
      selectedCompany p s <> None /\ In info PROJECT_TYPES
  | SlideBudget value =>
      selectedCompany p s <> None /\
      exists info, selectedProjectTypeInfo s = Some info /\
                   minBudget info <= value <= maxBudget info
  | ClickStart =>
      selectedCompany p s <> None /\ canAffordProject p s = true
  end.

Inductive reachable (p : Props) : State -> Prop :=
| reachable_init : reachable p (initialState p)
| reachable_step s e :
    reachable p s -> offered p s e -> reachable p (next (handle p s e)).

(** The budget lies in the band of the selected project type. *)
Definition inBand (s : State) : Prop :=
  exists info, selectedProjectTypeInfo s = Some info /\
               minBudget info <= budget s <= maxBudget info.

End BoxOfficeManager.

(** ** AutoBoxOfficeSettings.tsx *)

Module AutoBoxOfficeSettings.

Inductive PreferredProjectType : Type :=
| movie | series | documentary | auto.

Inductive Aggressiveness : Type := conservative | balanced | aggressive.

Record Settings : Type := {
  enabled : bool;
  minCashReserve : Q;
  maxInvestmentPercentage : Q;
  preferredProjectType : PreferredProjectType;
  aggressiveness : Aggressiveness
}.

(** The settings [handleReset] installs. *)
Definition defaultSettings : Settings :=
  {| enabled := true;
     minCashReserve := 100000;
     maxInvestmentPercentage := 0.2;
     preferredProjectType := auto;
     aggressiveness := balanced |}.

Definition estimatedBudget (localSettings : Settings) (currentCash : Q) : Q :=
  let availableCash := Qmax 0 (currentCash - minCashReserve localSettings) in
  availableCash * maxInvestmentPercentage localSettings.

Definition getRecommendedBudgetType (budget : Q) : string :=
  if Qgeb budget 10000000 then "Blockbuster Film"
  else if Qgeb budget 1000000 then "Independent Film"
  else if Qgeb budget 500000 then "TV Series"
  else if Qgeb budget 100000 then "Documentary"
  else "Insufficient for realistic production".

Definition canAffordRealisticProduction (localSettings : Settings)
    (currentCash : Q) : bool :=
  Qgeb (estimatedBudget localSettings currentCash) 100000.

End AutoBoxOfficeSettings.

(** ** The ownership ledger behind the trading callbacks *)

Module TradingLedger.
Import Ui.





End TradingLedger.

(** ** Concrete inputs *)

Module Examples.

(** The loan of the specification's worked example: 8% base rate over
    twelve months. *)
Definition exampleOffer : LoanManager.LoanOffer :=
  {| LoanManager.type := LoanManager.small;
     LoanManager.name := "Small Business Loan";
     LoanManager.description := "Quick funding for small investments";
     LoanManager.minAmount := 1000;
     LoanManager.maxAmount := 50000;
     LoanManager.baseInterestRate := 0.08;
     LoanManager.termMonths := 12;
     LoanManager.creditScoreRequired := 600 |}.

(** An interest-free offer. *)
Definition zeroRateOffer : LoanManager.LoanOffer :=
  {| LoanManager.type := LoanManager.small;
     LoanManager.name := "Interest-free Loan";
     LoanManager.description := "Promotional financing";
     LoanManager.minAmount := 1000;
     LoanManager.maxAmount := 50000;
     LoanManager.baseInterestRate := 0;
     LoanManager.termMonths := 12;
     LoanManager.creditScoreRequired := 600 |}.

(** An offer whose smallest amount lies above the calculator's initial
    [loanAmount] of 1000. *)
Definition mediumFloorOffer : LoanManager.LoanOffer :=
  {| LoanManager.type := LoanManager.small;
     LoanManager.name := "Small Business Loan";
     LoanManager.description := "Quick funding for small investments";
     LoanManager.minAmount := 5000;
     LoanManager.maxAmount := 50000;
     LoanManager.baseInterestRate := 0.08;
     LoanManager.termMonths := 12;
     LoanManager.creditScoreRequired := 600 |}.

Definition loanProps (offer : LoanManager.LoanOffer) (creditScore : Q)
    : LoanManager.Props :=
  {| LoanManager.loanOffers := [offer];
     LoanManager.creditScore := creditScore;
     LoanManager.currentCash := 0;
     LoanManager.onTakeLoan := fun _ _ => true |}.

(** A venture of which the player holds [sharesOwned] percent. *)
Definition venture (sharesOwned : Q) : CompanyCard.Company :=
  {| CompanyCard.id := "venture-1";
     CompanyCard.name := "Corner Cafe";
     CompanyCard.industry := "Food";
     CompanyCard.icon := "C";
     CompanyCard.level := 1;
     CompanyCard.marketValue := 1000000;
     CompanyCard.currentIncome := 10;
     CompanyCard.sharesOwned := sharesOwned;
     CompanyCard.upgradeCost := 5000;
     CompanyCard.moviesProduced := None;
     CompanyCard.totalBoxOfficeEarnings := None |}.

(** A real company worth [marketValue] of which the player holds
    [sharesOwned] percent. *)
Definition listed (id : string) (marketValue currentIncome sharesOwned : Q)
    : RealCompaniesModal.RealCompany :=
  {| RealCompaniesModal.id := id;
     RealCompaniesModal.name := id;
     RealCompaniesModal.industry := "Technology";
     RealCompaniesModal.description := "A listed company";
     RealCompaniesModal.marketValue := marketValue;
     RealCompaniesModal.currentIncome := currentIncome;
     RealCompaniesModal.sharesOwned := sharesOwned;
     RealCompaniesModal.volatility := 0.05 |}.

(** A film studio, wholly owned. *)
Definition studio : CompanyCard.Company :=
  {| CompanyCard.id := "studio-1";
     CompanyCard.name := "Silver Screen";
     CompanyCard.industry := "Film & TV Production";
     CompanyCard.icon := "F";
     CompanyCard.level := 1;
     CompanyCard.marketValue := 2000000;
     CompanyCard.currentIncome := 50;
     CompanyCard.sharesOwned := 100;
     CompanyCard.upgradeCost := 100000;
     CompanyCard.moviesProduced := Some 0%Z;
     CompanyCard.totalBoxOfficeEarnings := Some 0 |}.

Definition studioProps (currentCash : Q) : BoxOfficeManager.Props :=
  {| BoxOfficeManager.filmCompanies := [studio];
     BoxOfficeManager.currentCash := currentCash;
     BoxOfficeManager.onStartProject := fun _ _ _ => true |}.

Definition studioState (budget : Q) : BoxOfficeManager.State :=
  {| BoxOfficeManager.selectedCompanyId := "studio-1";
     BoxOfficeManager.selectedProjectType := BoxOfficeManager.movie;
     BoxOfficeManager.budget := budget |}.

End Examples.

(** ** LoanManager.tsx, the "Manage Loans" tab and the offer tiles *)

Module ManageLoans.

Inductive LoanStatus : Type := active | paid_off | defaulted.

Definition LoanStatus_eqb (a b : LoanStatus) : bool :=
  match a, b with
  | active, active | paid_off, paid_off | defaulted, defaulted => true
  | _, _ => false
  end.

Record Loan : Type := {
  id : string;
  loanType : LoanManager.LoanType;
  amount : Q;
  originalAmount : Q;
  interestRate : Q;
  monthlyPayment : Q;
  totalPayments : Z;
  remainingPayments : Z;
  missedPayments : Z;
  status : LoanStatus;
  takenDate : Z
}.

(** [loans.filter(l => l.status === 'active')] *)
Definition activeLoans (loans : list Loan) : list Loan :=
  filter (fun l => LoanStatus_eqb (status l) active) loans.

(** [activeLoans.reduce((sum, loan) => sum + loan.amount, 0)] *)
Definition totalDebt (loans : list Loan) : Q :=
  fold_left (fun sum loan => sum + amount loan) (activeLoans loans) 0.

Definition totalMonthlyPayments (loans : list Loan) : Q :=
  fold_left (fun sum loan => sum + monthlyPayment loan) (activeLoans loans) 0.

(** [loanOffers.find(o => o.type === loan.loanType)?.name || 'Loan']: a
    missing offer and an empty name both fall through to ['Loan']. *)
Definition loanName (loanOffers : list LoanManager.LoanOffer) (loan : Loan)
    : string :=
  match find (fun o => LoanManager.LoanType_eqb (LoanManager.type o)
                                              (loanType loan))
             loanOffers with
  | Some o =>
      match LoanManager.name o with
      | EmptyString => "Loan"
      | n => n
      end
  | None => "Loan"
  end.

(** [onRepayLoan(loan.id)] and [onRepayLoan(loan.id, loan.amount)]. *)
Inductive RepayCall : Type :=
| RepayLoan (loanId : string) (amount : option Q).

Record RepayButton : Type := {
  disabled : bool;
  onClick : RepayCall
}.

(** The two buttons under an active loan:
    [disabled={currentCash < loan.monthlyPayment}] and
    [disabled={currentCash < loan.amount}]. *)
Definition repayButtons (currentCash : Q) (loan : Loan) : list RepayButton :=
  [ {| disabled := Qltb currentCash (monthlyPayment loan);
       onClick := RepayLoan (id loan) None |};
    {| disabled := Qltb currentCash (amount loan);
       onClick := RepayLoan (id loan) (Some (amount loan)) |} ].

(** [activeLoans.map(loan => ...)]: every button of the tab. *)
Definition buttons (currentCash : Q) (loans : list Loan) : list RepayButton :=
  flat_map (repayButtons currentCash) (activeLoans loans).

Definition clicks (bs : list RepayButton) : list RepayCall :=
  flat_map (fun b => if disabled b then [] else [onClick b]) bs.

(** The click handler of an offer tile:
    [if (creditScore >= offer.creditScoreRequired) {
       setSelectedLoanType(offer.type); setLoanAmount(offer.minAmount); }] *)
Definition clickOffer (p : LoanManager.Props) (s : LoanManager.State)
    (offer : LoanManager.LoanOffer) : LoanManager.State :=
  if Qgeb (LoanManager.creditScore p) (LoanManager.creditScoreRequired offer)
  then {| LoanManager.selectedLoanType := LoanManager.type offer;
          LoanManager.loanAmount := LoanManager.minAmount offer |}
  else s.

End ManageLoans.

(** ** SaveManager.tsx, second component: the production list *)

Module Productions.
Import BoxOfficeManager.

Inductive ProjectStatus : Type := in_production | released | completed.

Record BoxOfficeProject : Type := {
  id : string;
  companyId : string;
  title : string;
  genre : string;
  type : ProjectType;
  budget : Q;
  productionTime : Q;
  releaseDate : Q;
  status : ProjectStatus;
  grossEarnings : Q;
  isAutoGenerated : bool
}.

(** [boxOfficeProjects.filter(p => selectedCompanyId &&
    p.companyId === selectedCompanyId)] *)
Definition companyProjects (boxOfficeProjects : list BoxOfficeProject)
    (selectedCompanyId : string) : list BoxOfficeProject :=
  filter (fun p => truthy selectedCompanyId
                   && String.eqb (companyId p) selectedCompanyId)
         boxOfficeProjects.

(** [companyProjects.reduce((sum, p) => sum + p.grossEarnings, 0)] *)
Definition totalBoxOfficeEarnings (boxOfficeProjects : list BoxOfficeProject)
    (selectedCompanyId : string) : Q :=
  fold_left (fun sum p => sum + grossEarnings p)
            (companyProjects boxOfficeProjects selectedCompanyId) 0.

Record Outcome : Type := {
  label : string;
  color : string;
  icon : string
}.

(** [const multiplier = earnings / budget] and the ladder of
    [multiplier >= ...] tests; a comparison with NaN is false.  The
    quotient is exact here and rounded in the code; rounding keeps the
    order, so it can lift a quotient just under a threshold onto the
    threshold and never pushes one below it. *)
Definition getOutcomeLabel (earnings budget : Q) : Outcome :=
  let multiplier := div (Fin earnings) (Fin budget) in
  if geb multiplier (Fin 10) then
    {| label := "Legendary Hit"; color := "text-purple-600"; icon := "🏆" |}
  else if geb multiplier (Fin 5) then
    {| label := "Blockbuster"; color := "text-yellow-600"; icon := "⭐" |}
  else if geb multiplier (Fin 2) then
    {| label := "Hit"; color := "text-green-600"; icon := "🎯" |}
  else if geb multiplier (Fin 0.8) then
    {| label := "Moderate Success"; color := "text-blue-600"; icon := "📈" |}
  else
    {| label := "Box Office Flop"; color := "text-red-600"; icon := "📉" |}.

(** [project.status === 'released' ? getOutcomeLabel(...) : null] *)
Definition outcome (project : BoxOfficeProject) : option Outcome :=
  match status project with
  | released =>
      Some (getOutcomeLabel (grossEarnings project) (budget project))
  | _ => None
  end.

(** The colour of the "Box Office" figure:
    [project.grossEarnings > project.budget ? 'text-green-600'
                                            : 'text-red-600']. *)
Definition boxOfficeColor (project : BoxOfficeProject) : string :=
  if Qgtb (grossEarnings project) (budget project)
  then "text-green-600" else "text-red-600".

(** [project.status === 'in-production'
       ? Math.max(0, project.releaseDate - Date.now()) : 0];
    [now] is the reading of [Date.now()]. *)
Definition timeRemaining (project : BoxOfficeProject) (now : Q) : Q :=
  match status project with
  | in_production => Qmax 0 (releaseDate project - now)
  | _ => 0
  end.

(** [Math.ceil(timeRemaining / 1000)] *)
Definition secondsRemaining (project : BoxOfficeProject) (now : Q) : Z :=
  Qceiling (timeRemaining project now / 1000).

(** The value of the progress bar:
    [((project.productionTime - timeRemaining) / project.productionTime)
     * 100]. *)
Definition progress (project : BoxOfficeProject) (now : Q) : jsnum :=
  mul (div (Fin (productionTime project - timeRemaining project now))
           (Fin (productionTime project)))
      (Fin 100).

End Productions.

(** ** AutoBoxOfficeSettings.tsx, the dialog's local settings *)

Module AutoSettingsDialog.
Import AutoBoxOfficeSettings.

(** What the user can do with the dialog's controls. *)
Inductive Event : Type :=
| ToggleEnabled (enabled : bool)
| SlideReserve (value : Q)
| SlidePercentage (value : Q)
| SelectProjectType (value : PreferredProjectType)
| ClickAggressiveness (level : Aggressiveness)
| ClickReset.

(** The [setLocalSettings(prev => ({ ...prev, field: ... }))] updates and
    [handleReset]. *)
Definition handle (localSettings : Settings) (e : Event) : Settings :=
  match e with
  | ToggleEnabled enabled =>
      {| enabled := enabled;
         minCashReserve := minCashReserve localSettings;
         maxInvestmentPercentage := maxInvestmentPercentage localSettings;
         preferredProjectType := preferredProjectType localSettings;
         aggressiveness := aggressiveness localSettings |}
  | SlideReserve value =>
      {| enabled := AutoBoxOfficeSettings.enabled localSettings;
         minCashReserve := value;
         maxInvestmentPercentage := maxInvestmentPercentage localSettings;
         preferredProjectType := preferredProjectType localSettings;
         aggressiveness := aggressiveness localSettings |}
  | SlidePercentage value =>
      {| enabled := AutoBoxOfficeSettings.enabled localSettings;
         minCashReserve := minCashReserve localSettings;
         maxInvestmentPercentage := value / 100;
         preferredProjectType := preferredProjectType localSettings;
         aggressiveness := aggressiveness localSettings |}
  | SelectProjectType value =>
      {| enabled := AutoBoxOfficeSettings.enabled localSettings;
         minCashReserve := minCashReserve localSettings;
         maxInvestmentPercentage := maxInvestmentPercentage localSettings;
         preferredProjectType := value;
         aggressiveness := aggressiveness localSettings |}
  | ClickAggressiveness level =>
      {| enabled := AutoBoxOfficeSettings.enabled localSettings;
         minCashReserve := minCashReserve localSettings;
         maxInvestmentPercentage := maxInvestmentPercentage localSettings;
         preferredProjectType := preferredProjectType localSettings;
         aggressiveness := level |}
  | ClickReset => defaultSettings
  end.

(** The two sliders carry [min={0} max={1000000}] and [min={5} max={50}];
    the component of [./ui/slider] is taken to report positions between
    its two ends.  Every other control is always there. *)
Definition offered (e : Event) : Prop :=
  match e with
  | SlideReserve value => 0 <= value <= 1000000
  | SlidePercentage value => 5 <= value <= 50
  | _ => True
  end.

(** [useState(settings)] and the events after it. *)
Inductive reachable (settings : Settings) : Settings -> Prop :=
| reachable_init : reachable settings settings
| reachable_step localSettings e :
    reachable settings localSettings -> offered e ->
    reachable settings (handle localSettings e).

(** The ranges of the two sliders. *)
Definition withinSliders (s : Settings) : Prop :=
  0 <= minCashReserve s <= 1000000 /\
  0.05 <= maxInvestmentPercentage s <= 0.5.

End AutoSettingsDialog.

(** ** RealCompaniesModal.tsx, tabs, groups and the card's indicators *)

Module MarketView.
Import RealCompaniesModal.

(** [selectedTab === 'owned' ? ownedCompanies : availableCompanies] *)
Definition tabCompanies (selectedTab : Tab) (realCompanies : list RealCompany)
    : list RealCompany :=
  match selectedTab with
  | owned => ownedCompanies realCompanies
  | all => availableCompanies realCompanies
  end.

(** The own properties of the [groups] object, oldest first. *)
Definition Groups : Type := list (string * list RealCompany).

Fixpoint lookup (industry : string) (groups : Groups)
    : option (list RealCompany) :=
  match groups with
  | [] => None
  | (k, g) :: r => if String.eqb k industry then Some g else lookup industry r
  end.

(** [groups[industry].push(company)] on an own property. *)
Fixpoint pushTo (industry : string) (company : RealCompany) (groups : Groups)
    : Groups :=
  match groups with
  | [] => []
  | (k, g) :: r =>
      if String.eqb k industry then (k, g ++ [company]) :: r
      else (k, g) :: pushTo industry company r
  end.

Section Grouping.

(** [groups] starts as the object literal [{}], which answers to some
    names through its prototype ([constructor], [toString], ...).
    [inherited] tells which names. *)
Variable inherited : string -> bool.

(** One round of the [forEach]:
    [if (!groups[company.industry]) groups[company.industry] = [];
     groups[company.industry].push(company);]
    An inherited property is there, so no array is made, and it has no
    [push]: the call throws ([None]). *)
Definition addCompany (groups : Groups) (company : RealCompany)
    : option Groups :=
  match lookup (industry company) groups with
  | Some _ => Some (pushTo (industry company) company groups)
  | None =>
      if inherited (industry company) then None
      else Some (groups ++ [(industry company, [company])])
  end.

(** The [forEach] as a whole; once a round has thrown, nothing follows. *)
Definition groupStep (groups : option Groups) (company : RealCompany)
    : option Groups :=
  match groups with
  | Some g => addCompany g company
  | None => None
  end.

Definition groupCompanies (companies : list RealCompany) : option Groups :=
  fold_left groupStep companies (Some []).

Definition groupedCompanies (selectedTab : Tab)
    (realCompanies : list RealCompany) : option Groups :=
  groupCompanies (tabCompanies selectedTab realCompanies).

End Grouping.

(** The grouping as one would describe it: under each industry, the
    companies of that industry in the order of the list, and no entry for
    an industry without companies. *)
Definition groupOf (k : string) (l : list RealCompany) : list RealCompany :=
  filter (fun c => String.eqb (industry c) k) l.

Definition shown (l : list RealCompany) : option (list RealCompany) :=
  match l with [] => None | _ => Some l end.

Definition grouped (g : Groups) (l : list RealCompany) : Prop :=
  NoDup (map fst g) /\ forall k, lookup k g = shown (groupOf k l).

(** [company.volatility > 0.06 ? 'High' :
     company.volatility > 0.04 ? 'Medium' : 'Low'] *)
Definition volatilityLabel (c : RealCompany) : string :=
  if Qgtb (volatility c) 0.06 then "High"
  else if Qgtb (volatility c) 0.04 then "Medium"
  else "Low".

(** The width of the volatility bar, in percent:
    [Math.min(company.volatility * 1000, 100)]. *)
Definition volatilityBarWidth (c : RealCompany) : Q :=
  Qmin (volatility c * 1000) 100.

(** When the card writes "No shares available":
    [sharesBuyable === 0 && company.sharesOwned === 0]. *)
Definition noSharesNotice (c : RealCompany) : bool :=
  Qeq_bool (sharesBuyable c) 0 && Qeq_bool (sharesOwned c) 0.

End MarketView.

(** ** CreateCompanyModal (the source file without a name) *)

Module CreateCompanyModal.

Record Industry : Type := {
  id : string;
  name : string;
  description : string;
  icon : string;
  baseCost : Q;
  baseIncome : Q
}.

Record Props : Type := {
  industries : list Industry;
  currentCash : Q;
  onCreateCompany : string -> string -> bool
}.

Record State : Type := {
  selectedIndustry : option Industry;
  companyName : string
}.

(** [useState(null)], [useState('')]. *)
Definition initialState : State :=
  {| selectedIndustry := None; companyName := EmptyString |}.

(** [currentCash >= industry.baseCost] *)
Definition canAffordIndustry (p : Props) (industry : Industry) : bool :=
  Qgeb (currentCash p) (baseCost industry).

(** The click on an industry tile:
    [canAffordIndustry(industry) && setSelectedIndustry(industry)]. *)
Definition clickIndustry (p : Props) (s : State) (industry : Industry)
    : State :=
  if canAffordIndustry p industry
  then {| selectedIndustry := Some industry; companyName := companyName s |}
  else s.

(** [setCompanyName(e.target.value)] *)
Definition typeName (s : State) (value : string) : State :=
  {| selectedIndustry := selectedIndustry s; companyName := value |}.

Record Outcome : Type := {
  calls : list (string * string);
  next : State;
  closed : bool
}.

Section Trimming.

(** [String.prototype.trim]. *)
Variable trim : string -> string.

Definition handleCreate (p : Props) (s : State) : Outcome :=
  match selectedIndustry s with
  | Some industry =>
      if BoxOfficeManager.truthy (trim (companyName s)) then
        let success :=
          onCreateCompany p (id industry) (trim (companyName s)) in
        {| calls := [(id industry, trim (companyName s))];
           next := if success then initialState else s;
           closed := success |}
      else {| calls := []; next := s; closed := false |}
  | None => {| calls := []; next := s; closed := false |}
  end.

(** [disabled={!selectedIndustry || !companyName.trim() ||
               !canAffordIndustry(selectedIndustry)}] *)
Definition createDisabled (p : Props) (s : State) : bool :=
  match selectedIndustry s with
  | None => true
  | Some industry =>
      negb (BoxOfficeManager.truthy (trim (companyName s)))
      || negb (canAffordIndustry p industry)
  end.

(** A click on the "Create Company" button. *)
Definition clickCreate (p : Props) (s : State) : Outcome :=
  if createDisabled p s
  then {| calls := []; next := s; closed := false |}
  else handleCreate p s.

End Trimming.

End CreateCompanyModal.

(** ** SaveManager.tsx, first component: SaveManager *)

Module SaveManager.

Inductive SaveStatus : Type := idle | saving | saved | error.

Record SaveSlot : Type := {
  id : string;
  name : string;
  lastPlayed : Z;
  netWorth : Q;
  companies : Z;
  playTime : Z
}.

(** The callback props, as calls: [onManualSave(slotId?)],
    [onLoadSave(slotId)], [onDeleteSave(slotId)], [onExportSave(slotId?)],
    [onNewGame()]. *)
Inductive Call : Type :=
| ManualSave (slotId : option string)
| LoadSave (slotId : string)
| DeleteSave (slotId : string)
| ExportSave (slotId : option string)
| NewGame.

(** The component state; the chosen import file is known by its name. *)
Record State : Type := {
  newSlotName : string;
  isCreatingSlot : bool;
  importFile : option string
}.

Definition initialState : State :=
  {| newSlotName := EmptyString; isCreatingSlot := false;
     importFile := None |}.

Record Outcome : Type := {
  calls : list Call;
  next : State
}.

Section Environment.

(** [String.prototype.trim]. *)
Variable trim : string -> string.

(** [timestamp] is the reading [Date.now().toString()]. *)
Definition handleCreateNewSlot (timestamp : string) (s : State) : Outcome :=
  if BoxOfficeManager.truthy (trim (newSlotName s)) then
    {| calls := [ManualSave (Some timestamp)];
       next := {| newSlotName := EmptyString;
                  isCreatingSlot := false;
                  importFile := importFile s |} |}
  else {| calls := []; next := s |}.

End Environment.

(** The buttons of one slot tile, left to right: "Load" unless the slot
    is the current one, "Export", and the bin unless the slot is ['main']. *)
Definition slotCalls (currentSaveSlot : string) (slot : SaveSlot)
    : list Call :=
  (if negb (String.eqb currentSaveSlot (id slot))
   then [LoadSave (id slot)] else [])
  ++ [ExportSave (Some (id slot))]
  ++ (if negb (String.eqb (id slot) "main")
      then [DeleteSave (id slot)] else []).

(** The "Quick Actions" row: the save button is
    [disabled={saveStatus === 'saving'}]; "New Game" and "Export Current"
    are always live. *)
Definition quickCalls (saveStatus : SaveStatus) : list Call :=
  (match saveStatus with saving => [] | _ => [ManualSave None] end)
  ++ [NewGame; ExportSave None].

(** Every call the dialog can make on a click, apart from the slot
    creation panel. *)
Definition dialogCalls (saveStatus : SaveStatus) (currentSaveSlot : string)
    (saveSlots : list SaveSlot) : list Call :=
  quickCalls saveStatus ++ flat_map (slotCalls currentSaveSlot) saveSlots.

End SaveManager.

(** ** More concrete inputs *)

Module MoreExamples.

(** A loan of 10,000 with 8,000 left to pay. *)
Definition loan (status : ManageLoans.LoanStatus) : ManageLoans.Loan :=
  {| ManageLoans.id := "loan-1";
     ManageLoans.loanType := LoanManager.small;
     ManageLoans.amount := 8000;
     ManageLoans.originalAmount := 10000;
     ManageLoans.interestRate := 0.1;
     ManageLoans.monthlyPayment := 880;
     ManageLoans.totalPayments := 12;
     ManageLoans.remainingPayments := 10;
     ManageLoans.missedPayments := 0;
     ManageLoans.status := status;
     ManageLoans.takenDate := 1700000000000 |}.

(** A released movie that cost 10,000,000. *)
Definition releasedMovie (grossEarnings : Q) : Productions.BoxOfficeProject :=
  {| Productions.id := "project-1";
     Productions.companyId := "studio-1";
     Productions.title := "The Long Take";
     Productions.genre := "Drama";
     Productions.type := BoxOfficeManager.movie;
     Productions.budget := 10000000;
     Productions.productionTime := 15000;
     Productions.releaseDate := 1700000015000;
     Productions.status := Productions.released;
     Productions.grossEarnings := grossEarnings;
     Productions.isAutoGenerated := false |}.

(** The same movie while it is being shot. *)
Definition movieInProduction : Productions.BoxOfficeProject :=
  {| Productions.id := "project-1";
     Productions.companyId := "studio-1";
     Productions.title := "The Long Take";
     Productions.genre := "Drama";
     Productions.type := BoxOfficeManager.movie;
     Productions.budget := 10000000;
     Productions.productionTime := 15000;
     Productions.releaseDate := 1700000015000;
     Productions.status := Productions.in_production;
     Productions.grossEarnings := 0;
     Productions.isAutoGenerated := false |}.

(** Names an empty object literal inherits. *)
Definition objectPrototype (k : string) : bool :=
  existsb (String.eqb k)
    ["constructor"; "toString"; "valueOf"; "hasOwnProperty";
     "isPrototypeOf"; "propertyIsEnumerable"; "toLocaleString";
     "__proto__"; "__defineGetter__"; "__defineSetter__";
     "__lookupGetter__"; "__lookupSetter__"]%string.

Definition bakery : CreateCompanyModal.Industry :=
  {| CreateCompanyModal.id := "bakery";
     CreateCompanyModal.name := "Bakery";
     CreateCompanyModal.description := "Fresh bread every morning";
     CreateCompanyModal.icon := "B";
     CreateCompanyModal.baseCost := 1000;
     CreateCompanyModal.baseIncome := 5 |}.

Definition createProps (currentCash : Q) : CreateCompanyModal.Props :=
  {| CreateCompanyModal.industries := [bakery];
     CreateCompanyModal.currentCash := currentCash;
     CreateCompanyModal.onCreateCompany := fun _ _ => true |}.

Definition namingSlot (newSlotName : string) : SaveManager.State :=
  {| SaveManager.newSlotName := newSlotName;
     SaveManager.isCreatingSlot := true;
     SaveManager.importFile := None |}.

End MoreExamples.

(** * Properties *)

(** ** Rational arithmetic *)

Lemma Qltb_lt (x y : Q) : Qltb x y = true <-> x < y.
Proof.
  unfold Qltb. rewrite negb_true_iff. split; intro H.
  - apply Qnot_le_lt. intro L. apply Qle_bool_iff in L. congruence.
  - destruct (Qle_bool y x) eqn:E; [|reflexivity].
    apply Qle_bool_iff in E. exfalso. apply (Qlt_not_le _ _ H E).
Qed.

Lemma Qltb_ge (x y : Q) : Qltb x y = false <-> y <= x.
Proof.
  unfold Qltb. rewrite negb_false_iff. apply Qle_bool_iff.
Qed.

Lemma Qgeb_le (x y : Q) : Qgeb x y = true <-> y <= x.
Proof. unfold Qgeb. apply Qle_bool_iff. Qed.

Lemma Qgeb_lt (x y : Q) : Qgeb x y = false <-> x < y.
Proof.
  unfold Qgeb. split; intro H.
  - apply Qnot_le_lt. intro L. apply Qle_bool_iff in L. congruence.
  - destruct (Qle_bool y x) eqn:E; [|reflexivity].
    apply Qle_bool_iff in E. exfalso. apply (Qlt_not_le _ _ H E).
Qed.

Lemma Qgtb_lt (x y : Q) : Qgtb x y = true <-> y < x.
Proof. apply Qltb_lt. Qed.

Lemma Qgtb_le (x y : Q) : Qgtb x y = false <-> x <= y.
Proof. apply Qltb_ge. Qed.



Lemma Qeq_bool_false (x y : Q) : ~ x == y -> Qeq_bool x y = false.
Proof.
  intro H. destruct (Qeq_bool x y) eqn:E; [|reflexivity].
  apply Qeq_bool_iff in E. contradiction.
Qed.


(** ** Loan pricing *)

Section LoanPricing.
Import LoanManager.

Lemma clamp_max_min (x : Q) : Qmax 0.5 (Qmin 2 x) == clamp x 0.5 2.
Proof.
  unfold clamp.
  destruct (Qltb x 0.5) eqn:E1.
  - apply Qltb_lt in E1.
    rewrite (Q.min_r 2 x) by lra. apply Q.max_l. lra.
  - apply Qltb_ge in E1.
    destruct (Qltb 2 x) eqn:E2.
    + apply Qltb_lt in E2. rewrite (Q.min_l 2 x) by lra.
      apply Q.max_r. lra.
    + apply Qltb_ge in E2. rewrite (Q.min_r 2 x) by lra.
      apply Q.max_r. lra.
Qed.

Lemma creditMultiplier_bounds (cs : Q) :
  0.5 <= creditMultiplier cs <= 2.
Proof.
  unfold creditMultiplier. split.
  - apply Q.le_max_l.
  - apply Q.max_lub; [lra | apply Q.le_min_l].
Qed.




End LoanPricing.

(** ** Claims on the loan calculator *)

Section LoanClaims.
Import LoanManager Examples.



Lemma monthlyPayment_zero_rate (o : LoanOffer) (cs amount : Q) :
  baseInterestRate o == 0 -> monthlyPayment (Some o) cs amount = NaN.
Proof.
  intro Hb. unfold monthlyPayment. cbv zeta.
  assert (Hr : adjustedInterestRate (Some o) cs / 12 == 0).
  { unfold adjustedInterestRate. rewrite Hb. field. }
  set (r := adjustedInterestRate (Some o) cs / 12) in *.
  unfold pow. rewrite (Qeq_bool_false (1 + r) 0), andb_false_r by lra.
  cbn [sub mul div].
  assert (Hd : Qeq_bool (1 - (1 + r) ^ (- termMonths o)) 0 = true).
  { apply Qeq_bool_iff. rewrite Hr.
    setoid_replace (1 + 0) with 1 by ring. rewrite Qpower_1. ring. }
  rewrite Hd.
  assert (Hn : (amount * r ?= 0) = Eq).
  { apply Qeq_alt. rewrite Hr. ring. }
  rewrite Hn. reflexivity.
Qed.



(** C2, as stated, fails: with a base rate of zero the monthly rate is
    zero and the payment is [0 / 0], that is NaN, and not the 1000 a month
    that [amount / termMonths] would give. *)
Lemma monthlyPayment_zero_rate_is_NaN :
  adjustedInterestRate (Some zeroRateOffer) 700 / 12 == 0 /\
  monthlyPayment (Some zeroRateOffer) 700 12000 = NaN /\
  monthlyPayment (Some zeroRateOffer) 700 12000
  <> Fin (12000 / inject_Z (termMonths zeroRateOffer)) /\
  is_finite (monthlyPayment (Some zeroRateOffer) 700 12000) = false.
Proof.
  split; [vm_compute; reflexivity|].
  split; [vm_compute; reflexivity|].
  split; [vm_compute; discriminate|].
  vm_compute; reflexivity.
Qed.

(** C2, amended.  The payment is the bare amortisation quotient
    [amount * rate / (1 - (1 + rate) ^ (- termMonths))] for every offer,
    without a branch for the limiting case: when the adjusted monthly rate
    is zero, that is for an offer with a base rate of zero, the quotient
    is [0 / 0] and the payment is NaN for every amount, credit score and
    term, not [amount / termMonths]. *)
Theorem monthlyPayment_has_no_zero_rate_branch :
  (forall o creditScore amount,
     monthlyPayment (Some o) creditScore amount
     = div (mul (Fin amount)
                (Fin (adjustedInterestRate (Some o) creditScore / 12)))
           (sub (Fin 1)
                (pow (1 + adjustedInterestRate (Some o) creditScore / 12)
                     (- termMonths o)))) /\
  (forall o creditScore amount,
     baseInterestRate o == 0 ->
     adjustedInterestRate (Some o) creditScore / 12 == 0 /\
     monthlyPayment (Some o) creditScore amount = NaN /\
     is_finite (monthlyPayment (Some o) creditScore amount) = false).
Proof.
  split.
  - intros o cs amount. reflexivity.
  - intros o cs amount Hb. split; [|split].
    + unfold adjustedInterestRate. rewrite Hb. field.
    + apply monthlyPayment_zero_rate. exact Hb.
    + rewrite (monthlyPayment_zero_rate o cs amount Hb). reflexivity.
Qed.

Lemma monthlyPayment_has_no_zero_rate_branch_witness :
  baseInterestRate zeroRateOffer == 0 /\
  monthlyPayment (Some zeroRateOffer) 850 5000 = NaN.
Proof.
  assert (Hb : baseInterestRate zeroRateOffer == 0)
    by (vm_compute; reflexivity).
  split; [exact Hb|].
  exact (proj1 (proj2 (proj2 monthlyPayment_has_no_zero_rate_branch
                         zeroRateOffer 850 5000 Hb))).
Defined.




Lemma handleTakeLoan_cases (p : Props) (s : State) (o : LoanOffer) :
  selectedOffer p s = Some o ->
  (creditScoreRequired o <= creditScore p /\
   minAmount o <= loanAmount s <= maxAmount o /\
   calls (handleTakeLoan p s) = [(selectedLoanType s, loanAmount s)]) \/
  (~ (creditScoreRequired o <= creditScore p /\
      minAmount o <= loanAmount s <= maxAmount o) /\
   calls (handleTakeLoan p s) = [] /\ next (handleTakeLoan p s) = s).
Proof.
  intro Hsel. unfold handleTakeLoan. rewrite Hsel. unfold canQualify.
  destruct (Qgeb (creditScore p) (creditScoreRequired o)) eqn:E1;
  destruct (Qgeb (loanAmount s) (minAmount o)) eqn:E2;
  destruct (Qle_bool (loanAmount s) (maxAmount o)) eqn:E3; cbn [andb calls next];
  try (right; split; [|split; reflexivity]; intros (H1 & H2 & H3);
       first [ apply Qgeb_lt in E1; lra
             | apply Qgeb_lt in E2; lra
             | apply Qle_bool_iff in H3; congruence ]).
  left. apply Qgeb_le in E1. apply Qgeb_le in E2. apply Qle_bool_iff in E3.
  repeat split; assumption.
Qed.

Lemma handleTakeLoan_returns_nothing (p : Props) (s : State) :
  returned (handleTakeLoan p s) = Undefined.
Proof.
  unfold handleTakeLoan. destruct (selectedOffer p s); [|reflexivity].
  destruct (_ && _ && _); reflexivity.
Qed.

(** C3, as stated, fails: an application turned down for its amount
    (1000 against a minimum of 5000, with a sufficient credit score) makes
    no callback and hands back no reason code. *)
Lemma rejected_amount_gives_no_reason :
  let p := loanProps mediumFloorOffer 700 in
  selectedOffer p initialState = Some mediumFloorOffer /\
  creditScoreRequired mediumFloorOffer <= creditScore p /\
  loanAmount initialState < minAmount mediumFloorOffer /\
  calls (handleTakeLoan p initialState) = [] /\
  returned (handleTakeLoan p initialState) <> Str "amount-out-of-range" /\
  returned (handleTakeLoan p initialState) <> Str "credit-too-low".
Proof.
  cbv zeta.
  split; [reflexivity|].
  split; [vm_compute; discriminate|].
  split; [vm_compute; reflexivity|].
  split; [vm_compute; reflexivity|].
  split; vm_compute; discriminate.
Qed.

(** C3, amended.  With an offer selected, [handleTakeLoan] invokes the
    take-loan callback, once and with the requested amount as it stands,
    if and only if [creditScore >= creditScoreRequired] and
    [minAmount <= amount <= maxAmount]; otherwise it invokes nothing and
    leaves the state alone.  In both cases it returns nothing: a rejection
    carries no reason code. *)
Theorem loan_accepted_iff_qualified (p : Props) (s : State) (o : LoanOffer) :
  selectedOffer p s = Some o ->
  (calls (handleTakeLoan p s) = [(selectedLoanType s, loanAmount s)] <->
   creditScoreRequired o <= creditScore p /\
   minAmount o <= loanAmount s <= maxAmount o) /\
  (calls (handleTakeLoan p s) = [] <->
   ~ (creditScoreRequired o <= creditScore p /\
      minAmount o <= loanAmount s <= maxAmount o)) /\
  (calls (handleTakeLoan p s) = [] -> next (handleTakeLoan p s) = s) /\
  returned (handleTakeLoan p s) = Undefined.
Proof.
  intro Hsel.
  pose proof (handleTakeLoan_returns_nothing p s) as Hret.
  destruct (handleTakeLoan_cases p s o Hsel) as [(H1 & H2 & Hc)|(Hn & Hc & Hs)];
    rewrite Hc.
  - split; [|split; [|split]].
    + split; [intros _; split; assumption | reflexivity].
    + split; [discriminate | intro Hneg; exfalso; apply Hneg; split; assumption].
    + discriminate.
    + exact Hret.
  - split; [|split; [|split]].
    + split; [discriminate | intro Hq; contradiction].
    + split; [intros _; exact Hn | reflexivity].
    + intros _. exact Hs.
    + exact Hret.
Qed.

Lemma loan_accepted_iff_qualified_witness :
  let p := loanProps exampleOffer 700 in
  selectedOffer p initialState = Some exampleOffer /\
  calls (handleTakeLoan p initialState) = [(small, 1000)].
Proof.
  cbv zeta.
  assert (Hsel : selectedOffer (loanProps exampleOffer 700) initialState
                 = Some exampleOffer) by reflexivity.
  split; [exact Hsel|].
  apply (proj1 (loan_accepted_iff_qualified _ _ _ Hsel)).
  split; [|split]; vm_compute; discriminate.
Defined.

End LoanClaims.

(** ** Claims on share trading *)

Section Cards.
Import Ui TradingLedger.

Lemma In_clicks (i : Intent) (bs : list Button) :
  In i (clicks bs) <->
  exists b, In b bs /\ disabled b = false /\ onClick b = i.
Proof.
  unfold clicks. rewrite in_flat_map. split.
  - intros (b & Hb & Hi). exists b. unfold click in Hi.
    destruct (disabled b); simpl in Hi; [contradiction|].
    destruct Hi as [Hi|[]]. auto.
  - intros (b & Hb & Hd & Hi). exists b. split; [exact Hb|].
    unfold click. rewrite Hd. left. exact Hi.
Qed.


Lemma venture_catalog_pos (p : Q) : In p [5; 10; 20] -> 0 < p.
Proof.
  intros [H|[H|[H|[]]]]; subst p; reflexivity.
Qed.

Lemma listed_catalog_pos (p : Q) : In p [1; 5; 10] -> 0 < p.
Proof.
  intros [H|[H|[H|[]]]]; subst p; reflexivity.
Qed.

Lemma venture_buy_iff (c : CompanyCard.Company) (i : Intent) :
  In i (clicks (CompanyCard.buyButtons c)) <->
  exists p, i = BuyShares (CompanyCard.id c) p /\ In p [5; 10; 20] /\
            CompanyCard.sharesOwned c + p <= 100.
Proof.
  rewrite In_clicks. unfold CompanyCard.buyButtons, CompanyCard.sharesBuyable.
  destruct (Qgtb (100 - CompanyCard.sharesOwned c) 0) eqn:E.
  - split.
    + intros (b & Hb & Hd & Hi). apply in_map_iff in Hb.
      destruct Hb as (p & <- & Hp). cbn in Hd, Hi.
      exists p. apply Qltb_ge in Hd. repeat split; auto. lra.
    + intros (p & -> & Hp & Hle).
      eexists. split; [apply in_map_iff; exists p; split; [reflexivity|exact Hp]|].
      cbn. split; [apply Qltb_ge; lra | reflexivity].
  - apply Qgtb_le in E. split.
    + intros (b & [] & _).
    + intros (p & _ & Hp & Hle). apply venture_catalog_pos in Hp. lra.
Qed.

Lemma venture_sell_iff (c : CompanyCard.Company) (i : Intent) :
  In i (clicks (CompanyCard.sellButtons c)) <->
  exists p, i = SellShares (CompanyCard.id c) p /\ In p [5; 10; 20] /\
            p <= CompanyCard.sharesOwned c.
Proof.
  rewrite In_clicks. unfold CompanyCard.sellButtons.
  destruct (Qgtb (CompanyCard.sharesOwned c) 0) eqn:E.
  - split.
    + intros (b & Hb & Hd & Hi). apply in_map_iff in Hb.
      destruct Hb as (p & <- & Hp). cbn in Hd, Hi.
      exists p. apply Qltb_ge in Hd. repeat split; auto.
    + intros (p & -> & Hp & Hle).
      eexists. split; [apply in_map_iff; exists p; split; [reflexivity|exact Hp]|].
      cbn. split; [apply Qltb_ge; lra | reflexivity].
  - apply Qgtb_le in E. split.
    + intros (b & [] & _).
    + intros (p & _ & Hp & Hle). apply venture_catalog_pos in Hp. lra.
Qed.

Lemma listed_buy_iff (props : RealCompaniesModal.CardProps) (i : Intent) :
  let c := RealCompaniesModal.company props in
  In i (clicks (RealCompaniesModal.buyButtons props)) <->
  exists p, i = BuyShares (RealCompaniesModal.id c) p /\ In p [1; 5; 10] /\
            RealCompaniesModal.sharesOwned c + p <= 100.
Proof.
  cbv zeta. rewrite In_clicks.
  unfold RealCompaniesModal.buyButtons, RealCompaniesModal.sharesBuyable.
  cbv zeta.
  set (c := RealCompaniesModal.company props).
  destruct (Qgtb (100 - RealCompaniesModal.sharesOwned c) 0) eqn:E.
  - split.
    + intros (b & Hb & Hd & Hi). apply in_map_iff in Hb.
      destruct Hb as (p & <- & Hp). cbn in Hi.
      apply filter_In in Hp. destruct Hp as [Hp Hle].
      apply Qle_bool_iff in Hle.
      exists p. repeat split; auto. lra.
    + intros (p & -> & Hp & Hle).
      eexists. split; [apply in_map_iff; exists p; split; [reflexivity|]|].
      * apply filter_In. split; [exact Hp|]. apply Qle_bool_iff. lra.
      * cbn. split; reflexivity.
  - apply Qgtb_le in E. split.
    + intros (b & [] & _).
    + intros (p & _ & Hp & Hle). apply listed_catalog_pos in Hp. lra.
Qed.

Lemma listed_sell_iff (props : RealCompaniesModal.CardProps) (i : Intent) :
  let c := RealCompaniesModal.company props in
  In i (clicks (RealCompaniesModal.sellButtons props)) <->
  exists p, i = SellShares (RealCompaniesModal.id c) p /\ In p [1; 5; 10] /\
            p <= RealCompaniesModal.sharesOwned c.
Proof.
  cbv zeta. rewrite In_clicks.
  unfold RealCompaniesModal.sellButtons.
  cbv zeta.
  set (c := RealCompaniesModal.company props).
  destruct (Qgtb (RealCompaniesModal.sharesOwned c) 0) eqn:E.
  - split.
    + intros (b & Hb & Hd & Hi). apply in_map_iff in Hb.
      destruct Hb as (p & <- & Hp). cbn in Hi.
      apply filter_In in Hp. destruct Hp as [Hp Hle].
      apply Qle_bool_iff in Hle.
      exists p. repeat split; auto.
    + intros (p & -> & Hp & Hle).
      eexists. split; [apply in_map_iff; exists p; split; [reflexivity|]|].
      * apply filter_In. split; [exact Hp|]. apply Qle_bool_iff. lra.
      * cbn. split; reflexivity.
  - apply Qgtb_le in E. split.
    + intros (b & [] & _).
    + intros (p & _ & Hp & Hle). apply listed_catalog_pos in Hp. lra.
Qed.






(** C4, as stated, fails: with no cash at all the real-company card
    still forwards a 10% buy of a company worth 1,000,000 (cost 100,000),
    and the venture card, which is never told the cash, forwards its buys
    too. *)
Lemma buy_forwarded_beyond_cash :
  let c := Examples.listed "ACME" 1000000 10 0 in
  let modal := {| RealCompaniesModal.realCompanies := [c];
                  RealCompaniesModal.currentCash := 0 |} in
  exists card,
    RealCompaniesModal.cards modal RealCompaniesModal.all = [card] /\
    RealCompaniesModal.cash card
    < RealCompaniesModal.marketValue (RealCompaniesModal.company card)
      * (10 / 100) /\
    In (BuyShares "ACME" 10) (clicks (RealCompaniesModal.buyButtons card)) /\
    In (BuyShares "venture-1" 20)
       (clicks (CompanyCard.buyButtons (Examples.venture 50))).
Proof.
  cbv zeta. eexists. split; [reflexivity|].
  split; [vm_compute; reflexivity|].
  split; vm_compute; tauto.
Qed.

(** C4, amended.  The buy requests a card forwards are exactly those for
    a percentage of its catalogue (5, 10, 20 on a venture card; 1, 5, 10 on
    a real-company card) that still fits under 100% ownership, whatever
    the available cash: the cards check no cash before invoking the buy
    callback.  The price the real-company card shows, 1% of the market
    value per percent, is [marketValue * (percentage / 100)] for a buy of
    [percentage] percent. *)
Theorem buy_requests_ignore_cash :
  (forall c i,
     In i (clicks (CompanyCard.buyButtons c)) <->
     exists p, i = BuyShares (CompanyCard.id c) p /\ In p [5; 10; 20] /\
               CompanyCard.sharesOwned c + p <= 100) /\
  (forall c cash i,
     In i (clicks (RealCompaniesModal.buyButtons
                     {| RealCompaniesModal.company := c;
                        RealCompaniesModal.cash := cash |})) <->
     exists p, i = BuyShares (RealCompaniesModal.id c) p /\
               In p [1; 5; 10] /\
               RealCompaniesModal.sharesOwned c + p <= 100) /\
  (forall c cash cash',
     RealCompaniesModal.buyButtons
       {| RealCompaniesModal.company := c; RealCompaniesModal.cash := cash |}
     = RealCompaniesModal.buyButtons
         {| RealCompaniesModal.company := c;
            RealCompaniesModal.cash := cash' |}) /\
  (forall c percentage,
     RealCompaniesModal.costPerPercent c * percentage
     == RealCompaniesModal.marketValue c * (percentage / 100)).
Proof.
  split; [|split; [|split]].
  - intros c i. apply venture_buy_iff.
  - intros c cash i.
    apply (listed_buy_iff {| RealCompaniesModal.company := c;
                             RealCompaniesModal.cash := cash |}).
  - reflexivity.
  - intros c p. unfold RealCompaniesModal.costPerPercent. field.
Qed.





End Cards.

(** ** Claims on the box-office studio *)

Section BoxOffice.
Import BoxOfficeManager.

Lemma truthy_iff (s : string) : truthy s = true <-> s <> EmptyString.
Proof.
  destruct s; simpl; split; congruence.
Qed.

Lemma PROJECT_TYPES_band (info : ProjectTypeInfo) :
  In info PROJECT_TYPES ->
  minBudget info <= maxBudget info /\
  find (fun p => ProjectType_eqb (type p) (type info)) PROJECT_TYPES
  = Some info.
Proof.
  intros [<-|[<-|[<-|[]]]]; (split; [vm_compute; discriminate | reflexivity]).
Qed.

Lemma selectedProjectTypeInfo_In (s : State) (info : ProjectTypeInfo) :
  selectedProjectTypeInfo s = Some info ->
  In info PROJECT_TYPES /\ type info = selectedProjectType s.
Proof.
  unfold selectedProjectTypeInfo. intro H. apply find_some in H.
  destruct H as [Hin Heq]. split; [exact Hin|].
  destruct (type info), (selectedProjectType s); simpl in Heq;
    congruence.
Qed.

Lemma selectedProjectTypeInfo_total (s : State) :
  exists info, selectedProjectTypeInfo s = Some info.
Proof.
  unfold selectedProjectTypeInfo.
  destruct (selectedProjectType s); eexists; reflexivity.
Qed.

Lemma handleStartProject_cases (p : Props) (s : State) :
  (selectedCompanyId s <> EmptyString /\ budget s <= currentCash p /\
   calls (handleStartProject p s)
   = [(selectedCompanyId s, budget s, selectedProjectType s)]) \/
  (~ (selectedCompanyId s <> EmptyString /\ budget s <= currentCash p) /\
   calls (handleStartProject p s) = [] /\ next (handleStartProject p s) = s).
Proof.
  unfold handleStartProject.
  destruct (selectedProjectTypeInfo_total s) as [info ->].
  unfold canAffordProject.
  destruct (truthy (selectedCompanyId s)) eqn:E1;
  destruct (Qgeb (currentCash p) (budget s)) eqn:E2; cbn [andb calls next].
  - left. apply truthy_iff in E1. apply Qgeb_le in E2. auto.
  - right. apply Qgeb_lt in E2. split; [|auto]. intros [_ H]. lra.
  - right. split; [|auto]. intros [H _]. apply truthy_iff in H. congruence.
  - right. split; [|auto]. intros [H _]. apply truthy_iff in H. congruence.
Qed.

Lemma inBand_step (p : Props) (s : State) (e : Event) :
  inBand s -> offered p s e -> inBand (next (handle p s e)).
Proof.
  intros Hs Ho. destruct e as [companyId | info | value | ];
    cbn [handle next].
  - exact Hs.
  - destruct Ho as [_ Hin].
    destruct (PROJECT_TYPES_band info Hin) as [Hle Hfind].
    exists info. split; [exact Hfind|]. cbn. lra.
  - destruct Ho as [_ (info & Hfind & Hband)].
    exists info. split; [exact Hfind | exact Hband].
  - unfold handleStartProject.
    destruct (selectedProjectTypeInfo s) as [info|] eqn:Hfind; [|exact Hs].
    destruct (truthy (selectedCompanyId s) && canAffordProject p s);
      [|exact Hs].
    cbn [next].
    destruct (onStartProject p _ _ _); [|exact Hs].
    destruct (selectedProjectTypeInfo_In s info Hfind) as [Hin _].
    destruct (PROJECT_TYPES_band info Hin) as [Hle _].
    exists info. split; [exact Hfind|]. cbn. lra.
Qed.

Lemma reachable_inBand (p : Props) (s : State) : reachable p s -> inBand s.
Proof.
  induction 1 as [|s e _ IH Ho].
  - eexists. split; [reflexivity|]. split; vm_compute; discriminate.
  - exact (inBand_step p s e IH Ho).
Qed.

Lemma handleStartProject_returns_nothing (p : Props) (s : State) :
  returned (handleStartProject p s) = LoanManager.Undefined.
Proof.
  unfold handleStartProject. destruct (selectedProjectTypeInfo s);
    [|reflexivity].
  destruct (_ && _); reflexivity.
Qed.

Lemma pressStart_cases (p : Props) (s : State) :
  (budget s <= currentCash p /\ pressStart p s = handleStartProject p s) \/
  (currentCash p < budget s /\
   disabled (startButton p s) = true /\
   label (startButton p s) = InsufficientFunds /\
   pressStart p s
   = {| calls := []; next := s; returned := LoanManager.Undefined |}).
Proof.
  unfold pressStart, startButton, canAffordProject. cbn [disabled label].
  destruct (Qgeb (currentCash p) (budget s)) eqn:E; cbn [negb].
  - left. apply Qgeb_le in E. auto.
  - right. apply Qgeb_lt in E. auto.
Qed.

(** C7, as stated, fails: the dialog opens on a movie budget of 1,000,000;
    with 500,000 in cash the start is turned down, the callback is not
    invoked, and nothing comes back from the handler or from the button:
    no InsufficientFunds failure, only a disabled button. *)
Lemma unaffordable_start_gives_no_failure :
  let p := Examples.studioProps 500000 in
  let s := initialState p in
  reachable p s /\
  currentCash p < budget s /\
  calls (handleStartProject p s) = [] /\
  calls (pressStart p s) = [] /\
  returned (handleStartProject p s) <> LoanManager.Str "InsufficientFunds" /\
  returned (pressStart p s) <> LoanManager.Str "InsufficientFunds" /\
  disabled (startButton p s) = true.
Proof.
  cbv zeta. split; [apply reachable_init|].
  split; [vm_compute; reflexivity|].
  split; [reflexivity|]. split; [reflexivity|].
  split; [vm_compute; discriminate|].
  split; [vm_compute; discriminate | reflexivity].
Qed.

(** C7, amended.  The bands are movie 1,000,000 to 300,000,000, series
    500,000 to 20,000,000 and documentary 100,000 to 5,000,000.  A budget
    outside the band of the selected type cannot be asked for: in every
    state the dialog can reach (company tiles, type tiles, the slider
    between its two ends, the start button) the budget lies within the
    band, so every call of the project-start callback carries a budget
    within the band and within the cash.  [handleStartProject] invokes the
    callback exactly when a company is selected and the budget does not
    exceed the cash, without looking at the band.  When the budget exceeds
    the cash the callback is not invoked and the state stays; nothing is
    returned, in this case or any other: there is no BudgetOutOfRange and
    no InsufficientFunds value, only the start button, disabled and
    reading "Insufficient Funds". *)
Theorem start_project_guard :
  map (fun info => (type info, minBudget info, maxBudget info)) PROJECT_TYPES
  = [ (movie, 1000000, 300000000);
      (series, 500000, 20000000);
      (documentary, 100000, 5000000) ] /\
  (forall p s, reachable p s -> inBand s) /\
  (forall p s companyId b t,
     reachable p s -> In (companyId, b, t) (calls (pressStart p s)) ->
     b <= currentCash p /\
     exists info,
       In info PROJECT_TYPES /\ type info = t /\
       minBudget info <= b <= maxBudget info) /\
  (forall p s,
     calls (handleStartProject p s)
     = [(selectedCompanyId s, budget s, selectedProjectType s)] <->
     selectedCompanyId s <> EmptyString /\ budget s <= currentCash p) /\
  (forall p s,
     currentCash p < budget s ->
     calls (handleStartProject p s) = [] /\
     next (handleStartProject p s) = s /\
     calls (pressStart p s) = [] /\
     disabled (startButton p s) = true /\
     label (startButton p s) = InsufficientFunds) /\
  (forall p s,
     returned (handleStartProject p s) = LoanManager.Undefined /\
     returned (pressStart p s) = LoanManager.Undefined).
Proof.
  split; [reflexivity|]. split; [|split; [|split; [|split]]].
  - apply reachable_inBand.
  - intros p s companyId b t Hr Hin.
    destruct (pressStart_cases p s) as [[Hle E]|(_ & _ & _ & E)];
      rewrite E in Hin; [|destruct Hin].
    destruct (handleStartProject_cases p s) as [(_ & _ & Hc)|(_ & Hc & _)];
      rewrite Hc in Hin; [|destruct Hin].
    destruct Hin as [Hin|[]]. injection Hin as <- <- <-.
    split; [exact Hle|].
    destruct (reachable_inBand p s Hr) as (info & Hf & Hband).
    destruct (selectedProjectTypeInfo_In s info Hf) as [Hi Ht].
    exists info. auto.
  - intros p s.
    destruct (handleStartProject_cases p s) as [(H1 & H2 & ->)|(Hn & -> & _)].
    + split; auto.
    + split; [discriminate | intro H; contradiction].
  - intros p s Hlt.
    destruct (handleStartProject_cases p s) as [(_ & H2 & _)|(_ & Hc & Hs)];
      [lra|].
    destruct (pressStart_cases p s) as [[Hle _]|(_ & Hd & Hl & E)]; [lra|].
    rewrite E. auto.
  - intros p s. split; [apply handleStartProject_returns_nothing|].
    destruct (pressStart_cases p s) as [[_ E]|(_ & _ & _ & E)]; rewrite E;
      [apply handleStartProject_returns_nothing | reflexivity].
Qed.

Lemma start_project_guard_witness :
  currentCash (Examples.studioProps 1000000)
  < budget (Examples.studioState 5000000) /\
  calls (handleStartProject (Examples.studioProps 1000000)
                            (Examples.studioState 5000000)) = [].
Proof.
  assert (H : currentCash (Examples.studioProps 1000000)
              < budget (Examples.studioState 5000000))
    by (vm_compute; reflexivity).
  split; [exact H|].
  exact (proj1 (proj1 (proj2 (proj2 (proj2 (proj2 start_project_guard))))
                  _ _ H)).
Defined.

Lemma getBudgetCategory_comp (t : ProjectType) (b b' : Q) :
  b == b' -> getBudgetCategory b t = getBudgetCategory b' t.
Proof.
  intro H. unfold getBudgetCategory, Qltb. 
  destruct t; rewrite ?H; reflexivity.
Qed.

(** C8.  The budget category is a function of the project type and the
    budget alone (equal budgets get equal categories); for movies a budget
    below 10,000,000 is Independent, one below 75,000,000 is Mid-Budget and
    anything else is Blockbuster; 5,000,000 is Independent and 50,000,000
    is Mid-Budget. *)
Theorem movie_budget_category (budget : Q) :
  (budget < 10000000 -> getBudgetCategory budget movie = "Independent"%string) /\
  (10000000 <= budget -> budget < 75000000 ->
   getBudgetCategory budget movie = "Mid-Budget"%string) /\
  (75000000 <= budget -> getBudgetCategory budget movie = "Blockbuster"%string) /\
  (forall t budget', budget == budget' ->
     getBudgetCategory budget t = getBudgetCategory budget' t) /\
  getBudgetCategory 5000000 movie = "Independent"%string /\
  getBudgetCategory 50000000 movie = "Mid-Budget"%string.
Proof.
  unfold getBudgetCategory.
  split; [|split; [|split; [|split; [|split]]]].
  - intro H. apply Qltb_lt in H. rewrite H. reflexivity.
  - intros H1 H2. apply Qltb_ge in H1. apply Qltb_lt in H2.
    rewrite H1, H2. reflexivity.
  - intro H. assert (H' : 10000000 <= budget) by lra.
    apply Qltb_ge in H, H'. rewrite H, H'. reflexivity.
  - intros t b' H. apply getBudgetCategory_comp. exact H.
  - reflexivity.
  - reflexivity.
Qed.

Lemma movie_budget_category_witness :
  getBudgetCategory 9999999 movie = "Independent"%string /\
  getBudgetCategory 10000000 movie = "Mid-Budget"%string /\
  getBudgetCategory 75000000 movie = "Blockbuster"%string.
Proof.
  split; [|split].
  - apply (proj1 (movie_budget_category 9999999)). reflexivity.
  - apply (proj1 (proj2 (movie_budget_category 10000000)));
      [discriminate | reflexivity].
  - apply (proj1 (proj2 (proj2 (movie_budget_category 75000000)))).
    discriminate.
Defined.

End BoxOffice.

(** ** Claims on the auto-investment estimate *)

Section AutoInvestment.
Import AutoBoxOfficeSettings.

(** C9.  [estimatedBudget = max(0, currentCash - minCashReserve) *
    maxInvestmentPercentage]; it is non-negative for every cash and reserve
    (the investment percentage being a non-negative fraction), it is zero
    whenever [currentCash <= minCashReserve], and
    [canAffordRealisticProduction] holds exactly when it is at least
    100,000. *)
Theorem estimatedBudget_properties (localSettings : Settings) (currentCash : Q) :
  estimatedBudget localSettings currentCash
  == Qmax 0 (currentCash - minCashReserve localSettings)
     * maxInvestmentPercentage localSettings /\
  (0 <= maxInvestmentPercentage localSettings ->
   0 <= estimatedBudget localSettings currentCash) /\
  (currentCash <= minCashReserve localSettings ->
   estimatedBudget localSettings currentCash == 0) /\
  (canAffordRealisticProduction localSettings currentCash = true <->
   100000 <= estimatedBudget localSettings currentCash).
Proof.
  unfold canAffordRealisticProduction, estimatedBudget. cbv zeta.
  split; [reflexivity|]. split; [|split].
  - intro Hp. apply Qmult_le_0_compat; [apply Q.le_max_l | exact Hp].
  - intro Hc. rewrite Q.max_l by lra. ring.
  - apply Qgeb_le.
Qed.

Lemma estimatedBudget_properties_witness :
  0 <= estimatedBudget defaultSettings 50000 /\
  estimatedBudget defaultSettings 50000 == 0.
Proof.
  split.
  - apply (proj1 (proj2 (estimatedBudget_properties defaultSettings 50000))).
    vm_compute. discriminate.
  - apply (proj1 (proj2 (proj2
             (estimatedBudget_properties defaultSettings 50000)))).
    vm_compute. discriminate.
Defined.

End AutoInvestment.

(** ** Claims on the portfolio summary *)

Section Portfolio.
Import RealCompaniesModal.

Lemma fold_owned_sum (f : RealCompany -> Q) (l : list RealCompany) (a : Q) :
  fold_left (fun total company => total + f company) (ownedCompanies l) a
  == a + spec_sum f l.
Proof.
  revert a. induction l as [|c r IH]; intro a; simpl.
  - ring.
  - destruct (Qgtb (sharesOwned c) 0); simpl; rewrite IH; ring.
Qed.

(** C10.  The portfolio summary ranges over the companies with
    [sharesOwned > 0] only: the value is the sum of
    [marketValue * sharesOwned / 100], the share total the sum of
    [sharesOwned], and the daily income the sum of
    [currentIncome * sharesOwned / 100 * 86400]. *)
Theorem portfolio_aggregation (realCompanies : list RealCompany) :
  (forall c, In c (ownedCompanies realCompanies) <->
             In c realCompanies /\ 0 < sharesOwned c) /\
  portfolioValue realCompanies
  == spec_sum (fun c => marketValue c * sharesOwned c / 100) realCompanies /\
  totalShares realCompanies == spec_sum sharesOwned realCompanies /\
  dailyIncome realCompanies
  == spec_sum (fun c => currentIncome c * sharesOwned c / 100 * 86400)
       realCompanies.
Proof.
  split; [|split; [|split]].
  - intro c. unfold ownedCompanies. rewrite filter_In, Qgtb_lt. reflexivity.
  - unfold portfolioValue.
    rewrite (fold_owned_sum (fun c => marketValue c * sharesOwned c / 100)).
    ring.
  - unfold totalShares. rewrite (fold_owned_sum sharesOwned). ring.
  - unfold dailyIncome.
    rewrite (fold_owned_sum
               (fun c => currentIncome c * sharesOwned c / 100 * 86400)).
    ring.
Qed.

Example portfolio_of_two :
  let l := [ Examples.listed "ACME" 1000000 10 20;
             Examples.listed "INIT" 5000000 40 0 ] in
  portfolioValue l == 200000 /\ totalShares l == 20 /\
  dailyIncome l == 172800.
Proof.
  cbv zeta. repeat split; vm_compute; reflexivity.
Qed.

End Portfolio.

(** * Further properties of the components *)

Ltac case_Qltb x y :=
  let E := fresh "E" in
  destruct (Qltb x y) eqn:E; [apply Qltb_lt in E | apply Qltb_ge in E].

Ltac case_Qgeb x y :=
  let E := fresh "E" in
  destruct (Qgeb x y) eqn:E; [apply Qgeb_le in E | apply Qgeb_lt in E].

Ltac case_Qgtb x y :=
  let E := fresh "E" in
  destruct (Qgtb x y) eqn:E; [apply Qgtb_lt in E | apply Qgtb_le in E].

(** ** The loan calculator and the loans tab *)

Section LoanExtras.
Import LoanManager.

Lemma creditMultiplier_clamp (cs : Q) :
  creditMultiplier cs == clamp ((850 - cs) / 350) 0.5 2.
Proof. apply clamp_max_min. Qed.

(** X1.  The credit multiplier is piecewise linear in the score: a score
    of 675 or more earns the floor 0.5, a score of 150 or less the cap 2,
    and in between the multiplier is [(850 - creditScore) / 350].  On the
    scores a player can have, 300 to 850, the cap is never reached: the
    multiplier stays within [[0.5, 11/7]]. *)
Theorem creditMultiplier_piecewise (creditScore : Q) :
  (675 <= creditScore -> creditMultiplier creditScore == 0.5) /\
  (150 <= creditScore <= 675 ->
   creditMultiplier creditScore == (850 - creditScore) / 350) /\
  (creditScore <= 150 -> creditMultiplier creditScore == 2) /\
  (300 <= creditScore <= 850 ->
   0.5 <= creditMultiplier creditScore <= 11 # 7).
Proof.
  rewrite creditMultiplier_clamp. unfold clamp.
  set (x := (850 - creditScore) / 350).
  assert (Hx : x * 350 == 850 - creditScore) by (unfold x; field).
  destruct (Qltb x 0.5) eqn:E1; [apply Qltb_lt in E1 | apply Qltb_ge in E1];
  [|destruct (Qltb 2 x) eqn:E2; [apply Qltb_lt in E2 | apply Qltb_ge in E2]];
  repeat split; intros; lra.
Qed.

Lemma creditMultiplier_antitone (cs1 cs2 : Q) :
  cs1 <= cs2 -> creditMultiplier cs2 <= creditMultiplier cs1.
Proof.
  intro H. rewrite !creditMultiplier_clamp. unfold clamp.
  set (x1 := (850 - cs1) / 350). set (x2 := (850 - cs2) / 350).
  assert (H1 : x1 * 350 == 850 - cs1) by (unfold x1; field).
  assert (H2 : x2 * 350 == 850 - cs2) by (unfold x2; field).
  case_Qltb x1 0.5; case_Qltb x2 0.5; case_Qltb 2 x1; case_Qltb 2 x2; lra.
Qed.

(** X2.  For an offer with a non-negative base rate a better credit score
    never gives a higher adjusted rate, and the adjusted rate always lies
    between 1.25 times and twice the base rate. *)
Theorem better_score_never_costs_more (o : LoanOffer) (cs1 cs2 : Q) :
  0 <= baseInterestRate o -> cs1 <= cs2 ->
  adjustedInterestRate (Some o) cs2 <= adjustedInterestRate (Some o) cs1 /\
  baseInterestRate o * 1.25 <= adjustedInterestRate (Some o) cs2 /\
  adjustedInterestRate (Some o) cs1 <= baseInterestRate o * 2.
Proof.
  intros Hb Hcs. unfold adjustedInterestRate.
  pose proof (creditMultiplier_antitone cs1 cs2 Hcs) as Hm.
  pose proof (creditMultiplier_bounds cs1) as [L1 U1].
  pose proof (creditMultiplier_bounds cs2) as [L2 U2].
  set (m1 := creditMultiplier cs1) in *. set (m2 := creditMultiplier cs2) in *.
  set (b := baseInterestRate o) in *.
  assert (0 <= b * (m1 - m2)) by (apply Qmult_le_0_compat; lra).
  assert (0 <= b * (m2 - 0.5)) by (apply Qmult_le_0_compat; lra).
  assert (0 <= b * (2 - m1)) by (apply Qmult_le_0_compat; lra).
  repeat split; lra.
Qed.

Lemma better_score_never_costs_more_witness :
  adjustedInterestRate (Some Examples.exampleOffer) 800
  <= adjustedInterestRate (Some Examples.exampleOffer) 400.
Proof.
  apply (better_score_never_costs_more Examples.exampleOffer 400 800);
    vm_compute; discriminate.
Defined.

End LoanExtras.

Section DebtExtras.
Import ManageLoans.

Lemma fold_active_sum (f : Loan -> Q) (l : list Loan) (a : Q) :
  fold_left (fun sum loan => sum + f loan) l a
  == a + fold_left (fun sum loan => sum + f loan) l 0.
Proof.
  revert a. induction l as [|x r IH]; intro a; simpl.
  - ring.
  - rewrite IH. rewrite (IH (0 + f x)). ring.
Qed.

Lemma activeLoans_app (l1 l2 : list Loan) :
  activeLoans (l1 ++ l2) = activeLoans l1 ++ activeLoans l2.
Proof. apply filter_app. Qed.

(** X4.  The debt summary counts active loans only and adds up over the
    list: an active loan anywhere in the list adds its balance and its
    monthly payment to the totals, a paid-off or defaulted loan changes
    neither the totals nor the list of active loans. *)
Theorem debt_summary_counts_active_loans (loan : Loan) (l1 l2 : list Loan) :
  totalDebt (l1 ++ l2) == totalDebt l1 + totalDebt l2 /\
  totalMonthlyPayments (l1 ++ l2)
  == totalMonthlyPayments l1 + totalMonthlyPayments l2 /\
  (status loan = active ->
   totalDebt (l1 ++ loan :: l2) == totalDebt (l1 ++ l2) + amount loan /\
   totalMonthlyPayments (l1 ++ loan :: l2)
   == totalMonthlyPayments (l1 ++ l2) + monthlyPayment loan) /\
  (status loan <> active ->
   activeLoans (l1 ++ loan :: l2) = activeLoans (l1 ++ l2) /\
   totalDebt (l1 ++ loan :: l2) == totalDebt (l1 ++ l2) /\
   totalMonthlyPayments (l1 ++ loan :: l2) == totalMonthlyPayments (l1 ++ l2)).
Proof.
  unfold totalDebt, totalMonthlyPayments.
  rewrite !activeLoans_app.
  split; [|split; [|split]].
  - rewrite fold_left_app. rewrite fold_active_sum. reflexivity.
  - rewrite fold_left_app. rewrite fold_active_sum. reflexivity.
  - intro Hs. unfold activeLoans at 2 6. simpl. rewrite Hs. simpl.
    fold (activeLoans l2).
    rewrite !fold_left_app. simpl.
    rewrite (fold_active_sum amount (activeLoans l2)).
    rewrite (fold_active_sum amount (activeLoans l2)
               (fold_left _ (activeLoans l1) 0)).
    rewrite (fold_active_sum monthlyPayment (activeLoans l2)).
    rewrite (fold_active_sum monthlyPayment (activeLoans l2)
               (fold_left _ (activeLoans l1) 0)).
    split; ring.
  - intro Hs.
    assert (E : activeLoans (loan :: l2) = activeLoans l2).
    { unfold activeLoans. simpl.
      destruct (status loan); simpl; congruence. }
    rewrite E. repeat split; reflexivity.
Qed.

Lemma In_repay_clicks (c : RepayCall) (bs : list RepayButton) :
  In c (clicks bs) <-> exists b, In b bs /\ disabled b = false /\ onClick b = c.
Proof.
  unfold clicks. rewrite in_flat_map. split.
  - intros (b & Hb & Hc). exists b. destruct (disabled b); simpl in Hc;
      [contradiction | destruct Hc as [Hc|[]]; auto].
  - intros (b & Hb & Hd & Hc). exists b. split; [exact Hb|].
    rewrite Hd. left. exact Hc.
Qed.

(** X5.  A repayment reaches [onRepayLoan] exactly when its loan is active
    and the cash covers it: the monthly payment for the plain repayment,
    the whole remaining balance for the pay-off, which always asks for
    exactly that balance. *)
Theorem repayment_forwarded_iff_covered (currentCash : Q) (loans : list Loan)
    (loanId : string) (requested : option Q) :
  In (RepayLoan loanId requested) (clicks (buttons currentCash loans)) <->
  exists loan,
    In loan loans /\ status loan = active /\ id loan = loanId /\
    match requested with
    | None => monthlyPayment loan <= currentCash
    | Some a => a = amount loan /\ amount loan <= currentCash
    end.
Proof.
  rewrite In_repay_clicks. unfold buttons. split.
  - intros (b & Hb & Hd & Hc). apply in_flat_map in Hb.
    destruct Hb as (loan & Hl & Hb). apply filter_In in Hl.
    destruct Hl as [Hl Hs]. exists loan. split; [exact Hl|].
    split; [destruct (status loan); simpl in Hs; congruence|].
    destruct Hb as [<-|[<-|[]]]; cbn in Hd, Hc; apply Qltb_ge in Hd;
      injection Hc as <- <-; auto.
  - intros (loan & Hl & Hs & Hi & Hr).
    assert (Ha : In loan (activeLoans loans)).
    { apply filter_In. split; [exact Hl|]. rewrite Hs. reflexivity. }
    destruct requested as [a|].
    + destruct Hr as [-> Hr].
      exists {| disabled := Qltb currentCash (amount loan);
                onClick := RepayLoan (id loan) (Some (amount loan)) |}.
      split; [apply in_flat_map; exists loan; split;
                [exact Ha | right; left; reflexivity]|].
      cbn. split; [apply Qltb_ge; exact Hr | rewrite Hi; reflexivity].
    + exists {| disabled := Qltb currentCash (monthlyPayment loan);
                onClick := RepayLoan (id loan) None |}.
      split; [apply in_flat_map; exists loan; split;
                [exact Ha | left; reflexivity]|].
      cbn. split; [apply Qltb_ge; exact Hr | rewrite Hi; reflexivity].
Qed.

(** X6.  An offer tile is inert when the credit score is below the offer's
    requirement.  Otherwise, if the offer is the one found for its type
    and its minimum does not exceed its maximum, clicking the tile and
    then applying forwards a request for exactly the offer's minimum
    amount, whatever amount was set before. *)
Theorem offer_tile_then_apply (p : LoanManager.Props) (s : LoanManager.State)
    (o : LoanManager.LoanOffer) :
  (LoanManager.creditScore p < LoanManager.creditScoreRequired o ->
   clickOffer p s o = s) /\
  (find (fun x => LoanManager.LoanType_eqb (LoanManager.type x)
                                          (LoanManager.type o))
        (LoanManager.loanOffers p) = Some o ->
   LoanManager.creditScoreRequired o <= LoanManager.creditScore p ->
   LoanManager.minAmount o <= LoanManager.maxAmount o ->
   LoanManager.calls (LoanManager.handleTakeLoan p (clickOffer p s o))
   = [(LoanManager.type o, LoanManager.minAmount o)]).
Proof.
  unfold clickOffer. split.
  - intro H. apply Qgeb_lt in H. rewrite H. reflexivity.
  - intros Hf Hc Hm. pose proof Hc as Hc'. apply Qgeb_le in Hc'.
    rewrite Hc'.
    destruct (handleTakeLoan_cases p
                {| LoanManager.selectedLoanType := LoanManager.type o;
                   LoanManager.loanAmount := LoanManager.minAmount o |} o Hf)
      as [(_ & _ & E)|(Hn & _)].
    + exact E.
    + exfalso. apply Hn. cbn. split; [exact Hc|]. split; [lra | exact Hm].
Qed.

Lemma offer_tile_then_apply_witness :
  LoanManager.calls
    (LoanManager.handleTakeLoan
       (Examples.loanProps Examples.mediumFloorOffer 700)
       (clickOffer (Examples.loanProps Examples.mediumFloorOffer 700)
                   LoanManager.initialState Examples.mediumFloorOffer))
  = [(LoanManager.small, 5000)].
Proof.
  apply (proj2 (offer_tile_then_apply
                  (Examples.loanProps Examples.mediumFloorOffer 700)
                  LoanManager.initialState Examples.mediumFloorOffer)).
  - reflexivity.
  - vm_compute. discriminate.
  - vm_compute. discriminate.
Defined.

(** X7.  The name shown for a loan is the name of the offer found for
    the loan's type whenever that name is not empty, and ['Loan'] when the
    found offer's name is empty or no offer has the loan's type; so it is
    never empty. *)
Theorem loanName_never_empty (loanOffers : list LoanManager.LoanOffer)
    (loan : Loan) :
  loanName loanOffers loan <> EmptyString /\
  (forall o,
     find (fun x => LoanManager.LoanType_eqb (LoanManager.type x)
                                             (loanType loan))
          loanOffers = Some o ->
     (LoanManager.name o <> EmptyString ->
      loanName loanOffers loan = LoanManager.name o) /\
     (LoanManager.name o = EmptyString ->
      loanName loanOffers loan = "Loan"%string)) /\
  (find (fun x => LoanManager.LoanType_eqb (LoanManager.type x)
                                           (loanType loan))
        loanOffers = None ->
   loanName loanOffers loan = "Loan"%string) /\
  ((forall o, In o loanOffers ->
              LoanManager.type o <> loanType loan) ->
   loanName loanOffers loan = "Loan"%string).
Proof.
  unfold loanName. split; [|split; [|split]].
  - destruct (find _ loanOffers) as [o|]; [|discriminate].
    destruct (LoanManager.name o); discriminate.
  - intros o Hf. rewrite Hf. split; intro Hn.
    + destruct (LoanManager.name o); [contradiction | reflexivity].
    + rewrite Hn. reflexivity.
  - intro Hf. rewrite Hf. reflexivity.
  - intro Hno. destruct (find _ loanOffers) as [o|] eqn:E; [|reflexivity].
    apply find_some in E. destruct E as [Hin Heq]. exfalso.
    apply (Hno o Hin).
    destruct (LoanManager.type o), (loanType loan); simpl in Heq; congruence.
Qed.

End DebtExtras.

(** ** The production list *)

Section ProductionExtras.
Import BoxOfficeManager Productions.

Lemma Qdiv_ge_iff (k e b : Q) : 0 < b -> (k <= e / b <-> k * b <= e).
Proof.
  intro Hb.
  assert (E : e / b * b == e) by (field; lra).
  split; intro H.
  - rewrite <- E. apply Qmult_le_compat_r; lra.
  - apply Qle_shift_div_l; assumption.
Qed.

Lemma div_finite (e b : Q) : ~ b == 0 -> div (Fin e) (Fin b) = Fin (e / b).
Proof.
  intro H. cbn [div]. rewrite (Qeq_bool_false b 0 H). reflexivity.
Qed.

Lemma getOutcomeLabel_cases (earnings budget : Q) :
  0 < budget ->
  (10 * budget <= earnings /\
   label (getOutcomeLabel earnings budget) = "Legendary Hit"%string) \/
  (5 * budget <= earnings < 10 * budget /\
   label (getOutcomeLabel earnings budget) = "Blockbuster"%string) \/
  (2 * budget <= earnings < 5 * budget /\
   label (getOutcomeLabel earnings budget) = "Hit"%string) \/
  (0.8 * budget <= earnings < 2 * budget /\
   label (getOutcomeLabel earnings budget) = "Moderate Success"%string) \/
  (earnings < 0.8 * budget /\
   label (getOutcomeLabel earnings budget) = "Box Office Flop"%string).
Proof.
  intro Hb. unfold getOutcomeLabel. cbv zeta.
  rewrite div_finite by lra. cbn [geb].
  pose proof (Qdiv_ge_iff 10 earnings budget Hb) as H10.
  pose proof (Qdiv_ge_iff 5 earnings budget Hb) as H5.
  pose proof (Qdiv_ge_iff 2 earnings budget Hb) as H2.
  pose proof (Qdiv_ge_iff 0.8 earnings budget Hb) as H08.
  set (m := earnings / budget) in *.
  case_Qgeb m 10; [left; split; [tauto | reflexivity]|].
  case_Qgeb m 5; [right; left; split; [|reflexivity]|].
  { split; [tauto|]. apply Qnot_le_lt. intro. apply H10 in H. lra. }
  case_Qgeb m 2; [right; right; left; split; [|reflexivity]|].
  { split; [tauto|]. apply Qnot_le_lt. intro. apply H5 in H. lra. }
  case_Qgeb m 0.8; [right; right; right; left; split; [|reflexivity]|].
  { split; [tauto|]. apply Qnot_le_lt. intro. apply H2 in H. lra. }
  right; right; right; right. split; [|reflexivity].
  apply Qnot_le_lt. intro. apply H08 in H. lra.
Qed.

(** X8.  With a positive budget a gross of at least 10, 5, 2 and 0.8
    times the budget secures at least the Legendary Hit, the Blockbuster,
    the Hit and the Moderate Success, and a higher gross never gets a
    lower label.  With a budget of zero the quotient is not finite: any
    positive gross is a Legendary Hit, and a gross of zero or less a Box
    Office Flop. *)
Theorem outcome_label_floors (earnings earnings' budget : Q) :
  (0 < budget ->
   (10 * budget <= earnings ->
    label (getOutcomeLabel earnings budget) = "Legendary Hit"%string) /\
   (5 * budget <= earnings ->
    In (label (getOutcomeLabel earnings budget))
       ["Legendary Hit"; "Blockbuster"]%string) /\
   (2 * budget <= earnings ->
    In (label (getOutcomeLabel earnings budget))
       ["Legendary Hit"; "Blockbuster"; "Hit"]%string) /\
   (0.8 * budget <= earnings ->
    label (getOutcomeLabel earnings budget) <> "Box Office Flop"%string) /\
   (earnings <= earnings' ->
    (label (getOutcomeLabel earnings budget) = "Legendary Hit"%string ->
     label (getOutcomeLabel earnings' budget) = "Legendary Hit"%string) /\
    (In (label (getOutcomeLabel earnings budget))
        ["Legendary Hit"; "Blockbuster"]%string ->
     In (label (getOutcomeLabel earnings' budget))
        ["Legendary Hit"; "Blockbuster"]%string) /\
    (In (label (getOutcomeLabel earnings budget))
        ["Legendary Hit"; "Blockbuster"; "Hit"]%string ->
     In (label (getOutcomeLabel earnings' budget))
        ["Legendary Hit"; "Blockbuster"; "Hit"]%string) /\
    (label (getOutcomeLabel earnings' budget) = "Box Office Flop"%string ->
     label (getOutcomeLabel earnings budget) = "Box Office Flop"%string))) /\
  (budget == 0 ->
   (0 < earnings ->
    label (getOutcomeLabel earnings budget) = "Legendary Hit"%string) /\
   (earnings <= 0 ->
    label (getOutcomeLabel earnings budget) = "Box Office Flop"%string)).
Proof.
  split.
  - intro Hb.
    destruct (getOutcomeLabel_cases earnings budget Hb)
      as [[H ->]|[[H ->]|[[H ->]|[[H ->]|[H ->]]]]];
    (split; [|split; [|split; [|split]]]);
    try (intro; first [ reflexivity | discriminate | exfalso; lra
                      | simpl; tauto ]);
    intro Hle;
    destruct (getOutcomeLabel_cases earnings' budget Hb)
      as [[H' ->]|[[H' ->]|[[H' ->]|[[H' ->]|[H' ->]]]]];
    repeat split; intro A; try reflexivity; try discriminate A;
    try (exfalso; lra); try (simpl; tauto);
    try (simpl in A;
         repeat (destruct A as [A|A]; [discriminate A|]); destruct A).
  - intro Hb. unfold getOutcomeLabel. cbv zeta. cbn [div].
    assert (E : Qeq_bool budget 0 = true) by (apply Qeq_bool_iff; exact Hb).
    rewrite E. split; intro He.
    + assert (C : (earnings ?= 0) = Gt) by (apply Qgt_alt; exact He).
      rewrite C. reflexivity.
    + destruct (earnings ?= 0) eqn:C.
      * reflexivity.
      * reflexivity.
      * apply Qgt_alt in C. lra.
Qed.

Lemma outcome_label_floors_witness :
  In (label (getOutcomeLabel 30000000 10000000))
     ["Legendary Hit"; "Blockbuster"; "Hit"]%string /\
  label (getOutcomeLabel 1 0) = "Legendary Hit"%string.
Proof.
  split.
  - apply (proj1 (proj2 (proj2 (proj1 (outcome_label_floors
                                         30000000 30000000 10000000)
                                      eq_refl)))).
    discriminate.
  - apply (proj1 (proj2 (outcome_label_floors 1 1 0) (Qeq_refl 0))).
    reflexivity.
Defined.

(** X9.  For a released project with a positive budget the outcome label
    and the colour of the box-office figure agree at both ends: a Hit, a
    Blockbuster or a Legendary Hit is always printed in green, a Box
    Office Flop always in red, and a figure in green is never a flop. *)
Theorem outcome_agrees_with_colour (project : BoxOfficeProject) (o : Outcome) :
  0 < budget project -> outcome project = Some o ->
  (In (label o) ["Legendary Hit"; "Blockbuster"; "Hit"]%string ->
   boxOfficeColor project = "text-green-600"%string) /\
  (label o = "Box Office Flop"%string ->
   boxOfficeColor project = "text-red-600"%string) /\
  (boxOfficeColor project = "text-green-600"%string ->
   label o <> "Box Office Flop"%string).
Proof.
  intros Hb Ho. unfold outcome in Ho.
  destruct (status project); try discriminate. injection Ho as <-.
  unfold boxOfficeColor.
  destruct (getOutcomeLabel_cases (grossEarnings project) (budget project) Hb)
    as [[H ->]|[[H ->]|[[H ->]|[[H ->]|[H ->]]]]];
    (destruct (Qgtb (grossEarnings project) (budget project)) eqn:E;
     [apply Qgtb_lt in E | apply Qgtb_le in E]);
    repeat split; try reflexivity; try discriminate; try lra;
    try (intros [A|[A|[A|[]]]]; discriminate A).
Qed.

Lemma fold_earnings (l : list BoxOfficeProject) (a : Q) :
  fold_left (fun sum p => sum + grossEarnings p) l a
  == a + fold_left (fun sum p => sum + grossEarnings p) l 0.
Proof.
  revert a. induction l as [|x r IH]; intro a; simpl.
  - ring.
  - rewrite IH. rewrite (IH (0 + grossEarnings x)). ring.
Qed.

(** X10.  The production list holds exactly the projects of the selected
    company; with no company selected it is empty, even for projects
    whose company id is empty, and the earnings total is zero.  The total
    adds up over the list of projects. *)
Theorem company_projects_of_selection (l1 l2 : list BoxOfficeProject)
    (selectedCompanyId : string) :
  (forall p,
     In p (companyProjects l1 selectedCompanyId) <->
     In p l1 /\ selectedCompanyId <> EmptyString /\
     companyId p = selectedCompanyId) /\
  companyProjects l1 EmptyString = [] /\
  totalBoxOfficeEarnings l1 EmptyString == 0 /\
  totalBoxOfficeEarnings (l1 ++ l2) selectedCompanyId
  == totalBoxOfficeEarnings l1 selectedCompanyId
     + totalBoxOfficeEarnings l2 selectedCompanyId.
Proof.
  assert (Hempty : companyProjects l1 EmptyString = []).
  { unfold companyProjects. induction l1 as [|x r IH]; [reflexivity|].
    simpl. exact IH. }
  split; [|split; [|split]].
  - intro p. unfold companyProjects. rewrite filter_In, andb_true_iff.
    rewrite truthy_iff, String.eqb_eq. tauto.
  - exact Hempty.
  - unfold totalBoxOfficeEarnings. rewrite Hempty. reflexivity.
  - unfold totalBoxOfficeEarnings, companyProjects.
    rewrite filter_app, fold_left_app. rewrite fold_earnings. reflexivity.
Qed.

Lemma timeRemaining_nonneg (project : BoxOfficeProject) (now : Q) :
  0 <= timeRemaining project now.
Proof.
  unfold timeRemaining. destruct (status project);
    [apply Q.le_max_l | lra | lra].
Qed.

Lemma timeRemaining_zero_iff (project : BoxOfficeProject) (now : Q) :
  status project = in_production ->
  (timeRemaining project now == 0 <-> releaseDate project <= now).
Proof.
  intro Hs. unfold timeRemaining. rewrite Hs. split; intro H.
  - pose proof (Q.le_max_r 0 (releaseDate project - now)). lra.
  - apply Q.max_l. lra.
Qed.

(** X11.  For a project in production with a positive production time:
    the time remaining and the seconds shown are never negative, the
    seconds shown are zero exactly once the release date has passed, and
    the progress bar's value is finite, never above 100, equal to 100
    exactly once the release date has passed, and non-negative exactly
    when the release lies no further ahead than the production time. *)
Theorem production_progress_bounds (project : BoxOfficeProject) (now : Q) :
  status project = in_production -> 0 < productionTime project ->
  0 <= timeRemaining project now /\
  (0 <= secondsRemaining project now)%Z /\
  (secondsRemaining project now = 0%Z <-> releaseDate project <= now) /\
  exists value,
    progress project now = Fin value /\
    value <= 100 /\
    (value == 100 <-> releaseDate project <= now) /\
    (0 <= value <-> releaseDate project - now <= productionTime project).
Proof.
  intros Hs Hp.
  pose proof (timeRemaining_nonneg project now) as Hr.
  pose proof (timeRemaining_zero_iff project now Hs) as Hz.
  assert (Hmax : timeRemaining project now == releaseDate project - now \/
                 (timeRemaining project now == 0 /\
                  releaseDate project - now <= 0)).
  { unfold timeRemaining. rewrite Hs.
    destruct (Q.max_spec 0 (releaseDate project - now)) as [[A B]|[A B]];
      [left; exact B | right; split; [exact B | exact A]]. }
  unfold secondsRemaining, progress.
  set (t := timeRemaining project now) in *.
  set (pt := productionTime project) in *.
  assert (Ht : t / 1000 * 1000 == t) by field.
  pose proof (Qle_ceiling (t / 1000)) as Hc1.
  pose proof (Qceiling_lt (t / 1000)) as Hc2.
  set (c := Qceiling (t / 1000)) in *.
  split; [exact Hr|]. split; [|split].
  - assert (H : inject_Z (c - 1) < inject_Z c) by (rewrite <- Zlt_Qlt; lia).
    assert (H0 : inject_Z (-1) < inject_Z c).
    { apply Qlt_le_trans with (t / 1000); [|exact Hc1].
      change (inject_Z (-1)) with (-1). lra. }
    rewrite <- Zlt_Qlt in H0. lia.
  - split; intro H.
    + apply Hz. rewrite H in Hc1. change (inject_Z 0) with 0 in Hc1. lra.
    + apply Hz in H.
      assert (H1 : inject_Z (c - 1) < inject_Z 0).
      { change (inject_Z 0) with 0. lra. }
      assert (H0 : inject_Z (-1) < inject_Z c).
      { apply Qlt_le_trans with (t / 1000); [|exact Hc1].
        change (inject_Z (-1)) with (-1). lra. }
      rewrite <- Zlt_Qlt in H1, H0. lia.
  - rewrite div_finite by lra. cbn [mul]. eexists. split; [reflexivity|].
    assert (E : (pt - t) / pt * 100 == 100 - t / pt * 100) by (field; lra).
    assert (Et : t / pt * pt == t) by (field; lra).
    set (q := t / pt) in *.
    assert (Hq : 0 <= q) by (unfold q; apply Qle_shift_div_l; lra).
    assert (Hq1 : q <= 1 <-> t <= pt).
    { split; intro H.
      - rewrite <- Et. setoid_replace pt with (1 * pt) at 2 by ring.
        apply Qmult_le_compat_r; lra.
      - unfold q. apply Qle_shift_div_r; lra. }
    assert (Hq0 : q == 0 <-> t == 0).
    { split; intro H.
      - rewrite <- Et, H. ring.
      - unfold q. rewrite H. field. lra. }
    rewrite E. split; [lra|]. split.
    + rewrite <- Hz. rewrite <- Hq0. split; intro; lra.
    + split; intro H.
      * assert (q <= 1) by lra. apply Hq1 in H0.
        destruct Hmax as [Hm|[Hm Hm']]; lra.
      * assert (t <= pt) by (destruct Hmax as [Hm|[Hm Hm']]; lra).
        apply Hq1 in H0. lra.
Qed.
End ProductionExtras.

(** ** The auto-investment dialog *)

Section AutoExtras.
Import AutoBoxOfficeSettings AutoSettingsDialog.

(** X12.  The warning gate and the recommendation agree: production is
    judged unaffordable exactly when the recommendation for the estimated
    budget reads "Insufficient for realistic production", and affordable
    exactly when the estimate reaches the minimum budget of some entry of
    the studio's [PROJECT_TYPES]. *)
Theorem realistic_gate_matches_recommendation (localSettings : Settings)
    (currentCash : Q) :
  (canAffordRealisticProduction localSettings currentCash = false <->
   getRecommendedBudgetType (estimatedBudget localSettings currentCash)
   = "Insufficient for realistic production"%string) /\
  (canAffordRealisticProduction localSettings currentCash = true <->
   exists info,
     In info BoxOfficeManager.PROJECT_TYPES /\
     BoxOfficeManager.minBudget info
     <= estimatedBudget localSettings currentCash).
Proof.
  unfold canAffordRealisticProduction, getRecommendedBudgetType.
  set (b := estimatedBudget localSettings currentCash).
  split.
  - case_Qgeb b 10000000; case_Qgeb b 1000000; case_Qgeb b 500000;
    case_Qgeb b 100000; split; intro H; try discriminate; try reflexivity;
    exfalso; lra.
  - rewrite Qgeb_le. split.
    + intro H. eexists. split; [right; right; left; reflexivity|].
      cbn. exact H.
    + intros (info & [<-|[<-|[<-|[]]]] & H); cbn in H; lra.
Qed.

(** X13.  The recommendation's bands are 100,000, 500,000, 1,000,000 and
    10,000,000.  Whenever it reads "Independent Film" the studio files the
    same budget as an Independent movie; between 10,000,000 and 75,000,000
    the two part ways: the recommendation reads "Blockbuster Film" and the
    studio's category is Mid-Budget. *)
Theorem recommendation_thresholds (budget : Q) :
  (getRecommendedBudgetType budget = "Documentary"%string <->
   100000 <= budget < 500000) /\
  (getRecommendedBudgetType budget = "TV Series"%string <->
   500000 <= budget < 1000000) /\
  (getRecommendedBudgetType budget = "Independent Film"%string <->
   1000000 <= budget < 10000000) /\
  (getRecommendedBudgetType budget = "Blockbuster Film"%string <->
   10000000 <= budget) /\
  (getRecommendedBudgetType budget = "Independent Film"%string ->
   BoxOfficeManager.getBudgetCategory budget BoxOfficeManager.movie
   = "Independent"%string) /\
  (10000000 <= budget < 75000000 ->
   getRecommendedBudgetType budget = "Blockbuster Film"%string /\
   BoxOfficeManager.getBudgetCategory budget BoxOfficeManager.movie
   = "Mid-Budget"%string).
Proof.
  unfold getRecommendedBudgetType, BoxOfficeManager.getBudgetCategory.
  case_Qgeb budget 10000000; case_Qgeb budget 1000000;
  case_Qgeb budget 500000; case_Qgeb budget 100000;
  case_Qltb budget 10000000; case_Qltb budget 75000000;
  repeat split; intros; try discriminate; try reflexivity; try lra.
Qed.

Lemma recommendation_thresholds_witness :
  getRecommendedBudgetType 50000000 = "Blockbuster Film"%string /\
  BoxOfficeManager.getBudgetCategory 50000000 BoxOfficeManager.movie
  = "Mid-Budget"%string.
Proof.
  apply (proj2 (proj2 (proj2 (proj2 (proj2
           (recommendation_thresholds 50000000)))))).
  split; [discriminate | reflexivity].
Defined.

(** X14.  With an investment share between 0 and 1 the estimated budget
    never exceeds the cash above the reserve, spending it never takes the
    cash below the reserve, and more cash never lowers the estimate. *)
Theorem estimate_respects_reserve (localSettings : Settings)
    (currentCash currentCash' : Q) :
  0 <= maxInvestmentPercentage localSettings <= 1 ->
  estimatedBudget localSettings currentCash
  <= Qmax 0 (currentCash - minCashReserve localSettings) /\
  (minCashReserve localSettings <= currentCash ->
   minCashReserve localSettings
   <= currentCash - estimatedBudget localSettings currentCash) /\
  (currentCash <= currentCash' ->
   estimatedBudget localSettings currentCash
   <= estimatedBudget localSettings currentCash').
Proof.
  intros [Hp0 Hp1]. unfold estimatedBudget. cbv zeta.
  set (pct := maxInvestmentPercentage localSettings) in *.
  set (r := minCashReserve localSettings) in *.
  pose proof (Q.le_max_l 0 (currentCash - r)) as Ha.
  set (a := Qmax 0 (currentCash - r)) in *.
  assert (H1 : 0 <= a * (1 - pct)) by (apply Qmult_le_0_compat; lra).
  split; [lra|]. split.
  - intro Hr. assert (Ea : a == currentCash - r)
      by (unfold a; apply Q.max_r; lra). lra.
  - intro Hc.
    assert (Hm : a <= Qmax 0 (currentCash' - r)).
    { unfold a. apply Q.max_le_compat_l. lra. }
    apply Qmult_le_compat_r; assumption.
Qed.

Lemma estimate_respects_reserve_witness :
  minCashReserve defaultSettings
  <= 600000 - estimatedBudget defaultSettings 600000.
Proof.
  assert (Hp : 0 <= maxInvestmentPercentage defaultSettings <= 1)
    by (split; vm_compute; discriminate).
  apply (proj1 (proj2 (estimate_respects_reserve defaultSettings
                         600000 600000 Hp))).
  vm_compute. discriminate.
Defined.

Lemma handle_withinSliders (s : Settings) (e : Event) :
  withinSliders s -> offered e -> withinSliders (handle s e).
Proof.
  intros [Hr Hp] Ho. destruct e; cbn in *; unfold withinSliders; cbn;
    try (split; assumption).
  - split; [exact Hr|].
    assert (E : value / 100 * 100 == value) by field. lra.
  - split; split; vm_compute; discriminate.
Qed.

(** X15.  If the dialog opens on settings within the ranges of its
    sliders (reserve 0 to 1,000,000, share 5% to 50%), every edit keeps the
    local settings within them, reset included; so whenever production is
    judged affordable the cash exceeds the reserve by at least 200,000. *)
Theorem dialog_settings_stay_within_sliders (settings localSettings : Settings) :
  withinSliders settings -> reachable settings localSettings ->
  withinSliders localSettings /\
  forall currentCash,
    canAffordRealisticProduction localSettings currentCash = true ->
    minCashReserve localSettings + 200000 <= currentCash.
Proof.
  intros H0 Hreach.
  assert (Hw : withinSliders localSettings).
  { induction Hreach as [|s e _ IH Ho]; [exact H0|].
    apply handle_withinSliders; assumption. }
  split; [exact Hw|].
  intros cash Hc. apply Qgeb_le in Hc. unfold estimatedBudget in Hc.
  cbv zeta in Hc. destruct Hw as [[Hr0 Hr1] [Hp0 Hp1]].
  set (pct := maxInvestmentPercentage localSettings) in *.
  set (r := minCashReserve localSettings) in *.
  destruct (Q.max_spec 0 (cash - r)) as [[A B]|[A B]]; rewrite B in Hc.
  - assert (0 <= (cash - r) * (0.5 - pct)) by (apply Qmult_le_0_compat; lra).
    lra.
  - lra.
Qed.

Lemma dialog_settings_stay_within_sliders_witness :
  withinSliders (handle (handle defaultSettings (SlidePercentage 50))
                        (SlideReserve 0)).
Proof.
  apply (dialog_settings_stay_within_sliders defaultSettings).
  - split; split; vm_compute; discriminate.
  - apply reachable_step; [apply reachable_step; [apply reachable_init|]|];
      cbn; split; vm_compute; discriminate.
Defined.
End AutoExtras.

(** ** The real-company market *)

Section MarketExtras2.
Import Ui RealCompaniesModal MarketView.

(** X16.  The "No shares available" notice of a real-company card can
    never show, since the shares left to buy and the shares owned cannot
    both be zero; every card renders its buy section or its sell section. *)
Theorem card_always_offers_a_section (c : RealCompany) :
  noSharesNotice c = false /\
  Qgtb (sharesBuyable c) 0 || Qgtb (sharesOwned c) 0 = true.
Proof.
  unfold noSharesNotice, sharesBuyable. split.
  - destruct (Qeq_bool (100 - sharesOwned c) 0) eqn:E1;
    destruct (Qeq_bool (sharesOwned c) 0) eqn:E2; try reflexivity.
    apply Qeq_bool_iff in E1, E2. lra.
  - case_Qgtb (100 - sharesOwned c) 0; [reflexivity|].
    case_Qgtb (sharesOwned c) 0; [reflexivity | lra].
Qed.

(** X17.  The "All Companies" tab lists exactly the companies whose card
    renders a buy section and the "My Portfolio" tab exactly those whose
    card renders a sell section; every company is on at least one tab, and
    a fully owned company is not on the first. *)
Theorem tabs_follow_card_sections (realCompanies : list RealCompany)
    (c : RealCompany) :
  (In c (tabCompanies all realCompanies) <->
   In c realCompanies /\ Qgtb (sharesBuyable c) 0 = true) /\
  (In c (tabCompanies owned realCompanies) <->
   In c realCompanies /\ Qgtb (sharesOwned c) 0 = true) /\
  (In c realCompanies ->
   In c (tabCompanies all realCompanies) \/
   In c (tabCompanies owned realCompanies)) /\
  (In c realCompanies -> 100 <= sharesOwned c ->
   ~ In c (tabCompanies all realCompanies)).
Proof.
  unfold tabCompanies, ownedCompanies, availableCompanies, sharesBuyable.
  rewrite !filter_In.
  assert (E : Qltb (sharesOwned c) 100 = Qgtb (100 - sharesOwned c) 0).
  { case_Qgtb (100 - sharesOwned c) 0;
      [apply Qltb_lt; lra | apply Qltb_ge; lra]. }
  rewrite E. split; [tauto|]. split; [tauto|]. split.
  - intro Hin. case_Qgtb (100 - sharesOwned c) 0; [left; auto|].
    right. split; [exact Hin|]. apply Qgtb_lt. lra.
  - intros Hin H100 [_ H]. apply Qgtb_lt in H. lra.
Qed.

Lemma tabs_follow_card_sections_witness :
  In (Examples.listed "ACME" 1000000 10 40)
     (tabCompanies all [Examples.listed "ACME" 1000000 10 40]) \/
  In (Examples.listed "ACME" 1000000 10 40)
     (tabCompanies owned [Examples.listed "ACME" 1000000 10 40]).
Proof.
  apply (proj1 (proj2 (proj2 (tabs_follow_card_sections
                                [Examples.listed "ACME" 1000000 10 40]
                                (Examples.listed "ACME" 1000000 10 40))))).
  left. reflexivity.
Defined.

(** X19.  The volatility bar never exceeds 100%, and label and bar agree:
    High exactly when the bar is above 60%, Low exactly when it is at most
    40%, Medium in between; the bar is full exactly from a volatility of
    0.1. *)
Theorem volatility_label_matches_bar (c : RealCompany) :
  volatilityBarWidth c <= 100 /\
  (volatilityLabel c = "High"%string <-> 60 < volatilityBarWidth c) /\
  (volatilityLabel c = "Medium"%string <->
   40 < volatilityBarWidth c <= 60) /\
  (volatilityLabel c = "Low"%string <-> volatilityBarWidth c <= 40) /\
  (volatilityBarWidth c == 100 <-> 0.1 <= volatility c).
Proof.
  unfold volatilityLabel, volatilityBarWidth.
  set (v := volatility c).
  destruct (Q.min_spec (v * 1000) 100) as [[A ->]|[A ->]];
  case_Qgtb v 0.06; case_Qgtb v 0.04;
  repeat split; intros; try discriminate; try reflexivity; try lra.
Qed.

(** X20.  The daily income of the summary is 86,400 times the sum of the
    per-second incomes the cards show for the holdings with a positive
    stake.  With no such holding all three totals are zero; the share
    total is never negative, and neither is the portfolio value when no
    market value is. *)
Theorem portfolio_totals_from_cards (realCompanies : list RealCompany) :
  dailyIncome realCompanies
  == 86400 * spec_sum incomePerSecond realCompanies /\
  (ownedCompanies realCompanies = [] ->
   portfolioValue realCompanies == 0 /\ totalShares realCompanies == 0 /\
   dailyIncome realCompanies == 0) /\
  0 <= totalShares realCompanies /\
  ((forall c, In c realCompanies -> 0 <= marketValue c) ->
   0 <= portfolioValue realCompanies).
Proof.
  assert (Hnn : forall (f : RealCompany -> Q) l,
            (forall c, In c l -> 0 < sharesOwned c -> 0 <= f c) ->
            0 <= spec_sum f l).
  { intros f l. induction l as [|c r IH]; intro H; simpl; [lra|].
    assert (0 <= spec_sum f r) by (apply IH; intros; apply H; [right|]; auto).
    case_Qgtb (sharesOwned c) 0; [|lra].
    assert (0 <= f c) by (apply H; [left; reflexivity | exact E]). lra. }
  split; [|split; [|split]].
  - unfold dailyIncome. rewrite fold_owned_sum.
    induction realCompanies as [|c r IH]; simpl; [ring|].
    rewrite Qplus_0_l in IH.
    destruct (Qgtb (sharesOwned c) 0).
    + unfold incomePerSecond at 1.
      setoid_replace
        (0 + (currentIncome c * sharesOwned c / 100 * 86400
              + spec_sum (fun c0 => currentIncome c0 * sharesOwned c0 / 100
                                    * 86400) r))
        with (currentIncome c * sharesOwned c / 100 * 86400
              + spec_sum (fun c0 => currentIncome c0 * sharesOwned c0 / 100
                                    * 86400) r) by ring.
      rewrite IH. field.
    + setoid_replace
        (0 + (0 + spec_sum (fun c0 => currentIncome c0 * sharesOwned c0 / 100
                                      * 86400) r))
        with (spec_sum (fun c0 => currentIncome c0 * sharesOwned c0 / 100
                                  * 86400) r) by ring.
      rewrite IH. ring.
  - intro He. unfold portfolioValue, totalShares, dailyIncome.
    rewrite He. simpl. repeat split; reflexivity.
  - unfold totalShares. rewrite fold_owned_sum.
    assert (0 <= spec_sum sharesOwned realCompanies)
      by (apply Hnn; intros; lra). lra.
  - intro Hm. unfold portfolioValue. rewrite fold_owned_sum.
    assert (0 <= spec_sum (fun c => marketValue c * sharesOwned c / 100)
                    realCompanies).
    { apply Hnn. intros c Hin Hs.
      assert (0 <= marketValue c * sharesOwned c)
        by (apply Qmult_le_0_compat; [apply Hm; exact Hin | lra]).
      apply Qle_shift_div_l; lra. }
    lra.
Qed.

(** X21.  When the trading buttons fall silent: a venture card forwards
    no sale below a stake of 5% and no purchase above 95%; a real-company
    card forwards no sale below 1% and no purchase above 99%; and in each
    case only then. *)
Theorem trading_sections_fall_silent (v : CompanyCard.Company)
    (p : CardProps) :
  (clicks (CompanyCard.sellButtons v) = [] <-> CompanyCard.sharesOwned v < 5) /\
  (clicks (CompanyCard.buyButtons v) = [] <-> 95 < CompanyCard.sharesOwned v) /\
  (clicks (sellButtons p) = [] <-> sharesOwned (company p) < 1) /\
  (clicks (buyButtons p) = [] <-> 99 < sharesOwned (company p)).
Proof.
  assert (Hnil : forall l : list Intent, l = [] <-> forall i, ~ In i l).
  { intro l. split; [intros -> i [] |].
    destruct l as [|a r]; [reflexivity|]. intro H. exfalso.
    apply (H a). left. reflexivity. }
  split; [|split; [|split]]; rewrite Hnil.
  - split.
    + intro H. apply Qnot_le_lt. intro Hle.
      apply (H (SellShares (CompanyCard.id v) 5)). apply venture_sell_iff.
      exists 5. split; [reflexivity|]. split; [left; reflexivity | exact Hle].
    + intros Hlt i Hi. apply venture_sell_iff in Hi.
      destruct Hi as (q & _ & [<-|[<-|[<-|[]]]] & Hle); lra.
  - split.
    + intro H. apply Qnot_le_lt. intro Hle.
      apply (H (BuyShares (CompanyCard.id v) 5)). apply venture_buy_iff.
      exists 5. split; [reflexivity|]. split; [left; reflexivity | lra].
    + intros Hlt i Hi. apply venture_buy_iff in Hi.
      destruct Hi as (q & _ & [<-|[<-|[<-|[]]]] & Hle); lra.
  - split.
    + intro H. apply Qnot_le_lt. intro Hle.
      apply (H (SellShares (id (company p)) 1)). apply listed_sell_iff.
      exists 1. split; [reflexivity|]. split; [left; reflexivity | exact Hle].
    + intros Hlt i Hi. apply listed_sell_iff in Hi.
      destruct Hi as (q & _ & [<-|[<-|[<-|[]]]] & Hle); lra.
  - split.
    + intro H. apply Qnot_le_lt. intro Hle.
      apply (H (BuyShares (id (company p)) 1)). apply listed_buy_iff.
      exists 1. split; [reflexivity|]. split; [left; reflexivity | lra].
    + intros Hlt i Hi. apply listed_buy_iff in Hi.
      destruct Hi as (q & _ & [<-|[<-|[<-|[]]]] & Hle); lra.
Qed.
End MarketExtras2.

Section GroupingExtras.
Import RealCompaniesModal MarketView.

Lemma lookup_None_iff (k : string) (g : Groups) :
  lookup k g = None <-> ~ In k (map fst g).
Proof.
  induction g as [|[k' x] r IH]; simpl.
  - tauto.
  - destruct (String.eqb k' k) eqn:E.
    + apply String.eqb_eq in E. split; [discriminate | tauto].
    + apply String.eqb_neq in E. rewrite IH. tauto.
Qed.

Lemma map_fst_pushTo (i : string) (c : RealCompany) (g : Groups) :
  map fst (pushTo i c g) = map fst g.
Proof.
  induction g as [|[k x] r IH]; simpl; [reflexivity|].
  destruct (String.eqb k i); simpl; [reflexivity | rewrite IH; reflexivity].
Qed.

Lemma lookup_pushTo (i k : string) (c : RealCompany) (g : Groups) :
  lookup k (pushTo i c g)
  = if String.eqb i k
    then option_map (fun x => x ++ [c]) (lookup k g)
    else lookup k g.
Proof.
  induction g as [|[k' x] r IH]; simpl.
  - destruct (String.eqb i k); reflexivity.
  - destruct (String.eqb k' i) eqn:E1; simpl.
    + apply String.eqb_eq in E1. subst k'.
      destruct (String.eqb i k); reflexivity.
    + destruct (String.eqb k' k) eqn:E2.
      * apply String.eqb_eq in E2. subst k'.
        rewrite String.eqb_sym, E1. reflexivity.
      * exact IH.
Qed.

Lemma lookup_app_new (i k : string) (c : RealCompany) (g : Groups) :
  lookup k (g ++ [(i, [c])])
  = match lookup k g with
    | Some x => Some x
    | None => if String.eqb i k then Some [c] else None
    end.
Proof.
  induction g as [|[k' x] r IH]; simpl.
  - reflexivity.
  - destruct (String.eqb k' k); [reflexivity | exact IH].
Qed.

Lemma groupOf_snoc (k : string) (l : list RealCompany) (c : RealCompany) :
  groupOf k (l ++ [c])
  = groupOf k l ++ (if String.eqb (industry c) k then [c] else []).
Proof.
  unfold groupOf. rewrite filter_app. simpl.
  destruct (String.eqb (industry c) k); reflexivity.
Qed.

Lemma shown_Some_In (l x : list RealCompany) :
  shown l = Some x -> exists c, In c l.
Proof.
  destruct l as [|c r]; [discriminate|]. intros _. exists c. left. reflexivity.
Qed.

Section WithPrototype.
Variable inherited : string -> bool.

Lemma addCompany_grouped (g : Groups) (done : list RealCompany)
    (c : RealCompany) :
  grouped g done ->
  (forall c0, In c0 done -> inherited (industry c0) = false) ->
  (inherited (industry c) = true /\ addCompany inherited g c = None) \/
  (inherited (industry c) = false /\
   exists g', addCompany inherited g c = Some g' /\ grouped g' (done ++ [c])).
Proof.
  intros [Hnd Hl] Hdone. unfold addCompany.
  destruct (lookup (industry c) g) as [x|] eqn:E.
  - right.
    assert (Hi : inherited (industry c) = false).
    { rewrite Hl in E. apply shown_Some_In in E. destruct E as (c0 & Hc0).
      apply filter_In in Hc0. destruct Hc0 as [Hin He].
      apply String.eqb_eq in He. rewrite <- He. apply Hdone. exact Hin. }
    split; [exact Hi|]. eexists. split; [reflexivity|]. split.
    + rewrite map_fst_pushTo. exact Hnd.
    + intro k. rewrite lookup_pushTo, groupOf_snoc, Hl.
      destruct (String.eqb (industry c) k) eqn:Ek.
      * apply String.eqb_eq in Ek. subst k.
        rewrite Hl in E. rewrite E. simpl.
        destruct (groupOf (industry c) done) as [|a r]; [discriminate|].
        simpl in E. injection E as <-. reflexivity.
      * rewrite app_nil_r. reflexivity.
  - destruct (inherited (industry c)) eqn:Hi; [left; auto|right].
    split; [reflexivity|]. eexists. split; [reflexivity|]. split.
    + rewrite map_app. simpl. apply NoDup_app.
      * exact Hnd.
      * constructor; [intros [] | constructor].
      * intros a Ha [<-|[]]. apply lookup_None_iff in E. contradiction.
    + intro k. rewrite lookup_app_new, groupOf_snoc, Hl.
      destruct (String.eqb (industry c) k) eqn:Ek.
      * apply String.eqb_eq in Ek. subst k.
        rewrite Hl in E.
        destruct (groupOf (industry c) done) as [|a r]; [|discriminate].
        reflexivity.
      * rewrite app_nil_r. destruct (shown (groupOf k done)); reflexivity.
Qed.

Lemma fold_groupStep_None (rest : list RealCompany) :
  fold_left (groupStep inherited) rest None = None.
Proof. induction rest as [|c r IH]; [reflexivity | exact IH]. Qed.

Lemma fold_groupStep_grouped (rest done : list RealCompany) (g : Groups) :
  grouped g done ->
  (forall c0, In c0 done -> inherited (industry c0) = false) ->
  (fold_left (groupStep inherited) rest (Some g) = None <->
   exists c, In c rest /\ inherited (industry c) = true) /\
  (forall g', fold_left (groupStep inherited) rest (Some g) = Some g' ->
              grouped g' (done ++ rest)).
Proof.
  revert done g. induction rest as [|c r IH]; intros done g Hg Hdone.
  - simpl. split.
    + split; [discriminate | intros (c & [] & _)].
    + intros g' E. injection E as <-. rewrite app_nil_r. exact Hg.
  - simpl.
    destruct (addCompany_grouped g done c Hg Hdone)
      as [[Hi E]|[Hi (g1 & E & Hg1)]]; rewrite E.
    + rewrite fold_groupStep_None. split.
      * split; [intros _; exists c; split; [left; reflexivity | exact Hi]
               | reflexivity].
      * discriminate.
    + assert (Hdone1 : forall c0, In c0 (done ++ [c]) ->
                                  inherited (industry c0) = false).
      { intros c0 H0. apply in_app_iff in H0.
        destruct H0 as [H0|[<-|[]]]; [apply Hdone; exact H0 | exact Hi]. }
      destruct (IH (done ++ [c]) g1 Hg1 Hdone1) as [IH1 IH2]. split.
      * rewrite IH1. split.
        -- intros (c1 & H1 & H2). exists c1. split; [right; exact H1 | exact H2].
        -- intros (c1 & [<-|H1] & H2); [congruence|].
           exists c1. split; assumption.
      * intros g' E'. rewrite <- app_assoc in IH2. apply IH2. exact E'.
Qed.

(** X18.  Grouping the tab's companies by industry fails exactly when some
    company's industry is a name the empty object inherits.  When it
    succeeds every industry occurs once, and under each industry sit
    exactly the tab's companies of that industry, in the tab's order; an
    industry without companies has no entry. *)
Theorem groupedCompanies_by_industry (selectedTab : Tab)
    (realCompanies : list RealCompany) :
  (groupedCompanies inherited selectedTab realCompanies = None <->
   exists c, In c (tabCompanies selectedTab realCompanies) /\
             inherited (industry c) = true) /\
  (forall groups,
     groupedCompanies inherited selectedTab realCompanies = Some groups ->
     NoDup (map fst groups) /\
     forall k,
       lookup k groups
       = shown (groupOf k (tabCompanies selectedTab realCompanies))).
Proof.
  unfold groupedCompanies, groupCompanies.
  assert (H0 : grouped [] []).
  { split; [constructor | intro k; reflexivity]. }
  destruct (fold_groupStep_grouped
              (tabCompanies selectedTab realCompanies) [] [] H0)
    as [H1 H2]; [intros c0 []|].
  split; [exact H1 | intros groups E; exact (H2 groups E)].
Qed.
End WithPrototype.
End GroupingExtras.

(** ** Company creation and the save dialog *)

Section CreateCompanyExtras.
Import CreateCompanyModal.
Variable trim : string -> string.

(** X22.  The "Create Company" button forwards a request exactly when an
    industry is selected, the trimmed name is not empty and the cash
    covers the industry's base cost; the request carries the trimmed name.
    [handleCreate] on its own makes no cash check.  The dialog closes only
    with a reset state, and otherwise keeps its state; an industry tile
    the cash does not cover is inert. *)
Theorem create_request_guard (p : Props) (s : State) :
  (forall i n,
     In (i, n) (calls (clickCreate trim p s)) <->
     exists industry,
       selectedIndustry s = Some industry /\ i = id industry /\
       n = trim (companyName s) /\ n <> EmptyString /\
       baseCost industry <= currentCash p) /\
  (forall i n,
     In (i, n) (calls (handleCreate trim p s)) <->
     exists industry,
       selectedIndustry s = Some industry /\ i = id industry /\
       n = trim (companyName s) /\ n <> EmptyString) /\
  (closed (clickCreate trim p s) = true ->
   next (clickCreate trim p s) = initialState) /\
  (closed (clickCreate trim p s) = false -> next (clickCreate trim p s) = s) /\
  (forall industry,
     currentCash p < baseCost industry -> clickIndustry p s industry = s).
Proof.
  assert (Hh : forall i n,
     In (i, n) (calls (handleCreate trim p s)) <->
     exists industry,
       selectedIndustry s = Some industry /\ i = id industry /\
       n = trim (companyName s) /\ n <> EmptyString).
  { intros i n. unfold handleCreate.
    destruct (selectedIndustry s) as [ind|].
    - destruct (BoxOfficeManager.truthy (trim (companyName s))) eqn:E.
      + apply truthy_iff in E. cbn [calls]. split.
        * intros [H|[]]. injection H as <- <-. exists ind. auto.
        * intros (x & Hx & -> & -> & _). injection Hx as <-.
          left. reflexivity.
      + cbn [calls]. split; [intros []|].
        intros (x & _ & _ & -> & Hn). apply truthy_iff in Hn. congruence.
    - cbn [calls]. split; [intros [] | intros (x & Hx & _); discriminate]. }
  split; [|split; [exact Hh|]].
  - intros i n. unfold clickCreate, createDisabled.
    destruct (selectedIndustry s) as [ind|] eqn:Es.
    + destruct (BoxOfficeManager.truthy (trim (companyName s))) eqn:Et;
      unfold canAffordIndustry;
      destruct (Qgeb (currentCash p) (baseCost ind)) eqn:Ec;
      cbn [negb orb calls].
      * rewrite Hh. apply Qgeb_le in Ec. split.
        -- intros (x & Hx & H). exists x. injection Hx as <-. tauto.
        -- intros (x & Hx & H). exists x. tauto.
      * apply Qgeb_lt in Ec. split; [intros []|].
        intros (x & Hx & _ & _ & _ & H). injection Hx as <-. lra.
      * split; [intros []|].
        intros (x & _ & _ & -> & Hn & _). apply truthy_iff in Hn. congruence.
      * split; [intros []|].
        intros (x & _ & _ & -> & Hn & _). apply truthy_iff in Hn. congruence.
    + cbn [calls]. split; [intros [] | intros (x & Hx & _); discriminate].
  - assert (Hc : forall o : Outcome,
              (o = handleCreate trim p s \/
               o = {| calls := []; next := s; closed := false |}) ->
              (closed o = true -> next o = initialState) /\
              (closed o = false -> next o = s)).
    { intros o [->| ->]; [|cbn; split; [discriminate | reflexivity]].
      unfold handleCreate. destruct (selectedIndustry s) as [ind|];
        [|cbn; split; [discriminate | reflexivity]].
      destruct (BoxOfficeManager.truthy _);
        [|cbn; split; [discriminate | reflexivity]].
      cbn. destruct (onCreateCompany p _ _); split;
        try discriminate; reflexivity. }
    destruct (Hc (clickCreate trim p s)) as [H1 H2].
    { unfold clickCreate. destruct (createDisabled trim p s); auto. }
    split; [exact H1|]. split; [exact H2|].
    intros ind Hlt. unfold clickIndustry, canAffordIndustry.
    apply Qgeb_lt in Hlt. rewrite Hlt. reflexivity.
Qed.
End CreateCompanyExtras.

Section SaveManagerExtras.
Import SaveManager.

Lemma In_slotCalls (current : string) (slot : SaveSlot) (c : Call) :
  In c (slotCalls current slot) <->
  (c = LoadSave (id slot) /\ id slot <> current) \/
  c = ExportSave (Some (id slot)) \/
  (c = DeleteSave (id slot) /\ id slot <> "main"%string).
Proof.
  unfold slotCalls. rewrite !in_app_iff.
  destruct (String.eqb_spec current (id slot)) as [E1|E1];
  destruct (String.eqb_spec (id slot) "main") as [E2|E2]; cbn [negb In];
  split; intro H;
  repeat match goal with
         | H : _ \/ _ |- _ => destruct H
         | H : _ /\ _ |- _ => destruct H
         | H : False |- _ => destruct H
         end; subst; auto; try congruence.
Qed.

(** X23.  What the save dialog can ask for: the deletion of a slot only
    if it is listed and is not ['main']; the loading of a slot only if it
    is listed and is not the current one; the export of any listed slot; a
    quick save unless one is running; and never a save into a named slot. *)
Theorem save_dialog_calls (saveStatus : SaveStatus) (currentSaveSlot : string)
    (saveSlots : list SaveSlot) (slotId : string) :
  (In (DeleteSave slotId) (dialogCalls saveStatus currentSaveSlot saveSlots)
   <-> slotId <> "main"%string /\
       exists slot, In slot saveSlots /\ id slot = slotId) /\
  (In (LoadSave slotId) (dialogCalls saveStatus currentSaveSlot saveSlots)
   <-> slotId <> currentSaveSlot /\
       exists slot, In slot saveSlots /\ id slot = slotId) /\
  (In (ExportSave (Some slotId))
      (dialogCalls saveStatus currentSaveSlot saveSlots)
   <-> exists slot, In slot saveSlots /\ id slot = slotId) /\
  (In (ManualSave None) (dialogCalls saveStatus currentSaveSlot saveSlots)
   <-> saveStatus <> saving) /\
  ~ In (ManualSave (Some slotId))
       (dialogCalls saveStatus currentSaveSlot saveSlots).
Proof.
  unfold dialogCalls, quickCalls.
  repeat rewrite in_app_iff. repeat rewrite in_flat_map.
  assert (Hq : forall c, In c [NewGame; ExportSave None] ->
                         c = NewGame \/ c = ExportSave None).
  { intros c [H|[H|[]]]; auto. }
  assert (Hm0 : forall c,
            In c (match saveStatus with
                  | saving => []
                  | _ => [ManualSave None]
                  end) ->
            c = ManualSave None /\ saveStatus <> saving).
  { intros c H. destruct saveStatus; try destruct H as [H|[]]; subst;
      try (split; [reflexivity | discriminate]). destruct H. }
  split; [|split; [|split; [|split]]].
  - split.
    + intros [[H|H]|(slot & Hs & H)].
      * apply Hm0 in H. destruct H as [H _]. discriminate H.
      * apply Hq in H. destruct H; discriminate.
      * apply In_slotCalls in H. destruct H as [[H _]|[H|[H Hm]]];
          try discriminate. injection H as ->. split; [exact Hm|].
        exists slot. auto.
    + intros (Hm & slot & Hs & <-). right. exists slot. split; [exact Hs|].
      apply In_slotCalls. right. right. auto.
  - split.
    + intros [[H|H]|(slot & Hs & H)].
      * apply Hm0 in H. destruct H as [H _]. discriminate H.
      * apply Hq in H. destruct H; discriminate.
      * apply In_slotCalls in H. destruct H as [[H Hm]|[H|[H _]]];
          try discriminate. injection H as ->. split; [exact Hm|].
        exists slot. auto.
    + intros (Hm & slot & Hs & <-). right. exists slot. split; [exact Hs|].
      apply In_slotCalls. left. auto.
  - split.
    + intros [[H|H]|(slot & Hs & H)].
      * apply Hm0 in H. destruct H as [H _]. discriminate H.
      * apply Hq in H. destruct H; discriminate.
      * apply In_slotCalls in H. destruct H as [[H _]|[H|[H _]]];
          try discriminate. injection H as ->. exists slot. auto.
    + intros (slot & Hs & <-). right. exists slot. split; [exact Hs|].
      apply In_slotCalls. right. left. reflexivity.
  - split.
    + intros [[H|H]|(slot & Hs & H)].
      * apply Hm0 in H. destruct H as [_ H]. exact H.
      * apply Hq in H. destruct H; discriminate.
      * apply In_slotCalls in H. destruct H as [[H _]|[H|[H _]]];
          discriminate.
    + intro H. left. left. destruct saveStatus;
        [left; reflexivity | congruence | left; reflexivity
        | left; reflexivity].
  - intros [[H|H]|(slot & Hs & H)].
    + apply Hm0 in H. destruct H as [H _]. discriminate H.
    + apply Hq in H. destruct H; discriminate.
    + apply In_slotCalls in H. destruct H as [[H _]|[H|[H _]]];
        discriminate.
Qed.

Variable trim : string -> string.

(** X24.  Creating a slot saves under the clock's reading: with a name
    that is not blank the one call is [onManualSave(timestamp)] and the
    panel closes with the name cleared; with a blank name nothing happens;
    and two names that are not blank lead to the same call, so the typed
    name reaches no callback. *)
Theorem new_slot_ignores_typed_name (timestamp : string) (s s' : State) :
  (trim (newSlotName s) <> EmptyString ->
   calls (handleCreateNewSlot trim timestamp s)
   = [ManualSave (Some timestamp)] /\
   next (handleCreateNewSlot trim timestamp s)
   = {| newSlotName := EmptyString; isCreatingSlot := false;
        importFile := importFile s |}) /\
  (trim (newSlotName s) = EmptyString ->
   calls (handleCreateNewSlot trim timestamp s) = [] /\
   next (handleCreateNewSlot trim timestamp s) = s) /\
  (trim (newSlotName s) <> EmptyString ->
   trim (newSlotName s') <> EmptyString ->
   calls (handleCreateNewSlot trim timestamp s)
   = calls (handleCreateNewSlot trim timestamp s')).
Proof.
  unfold handleCreateNewSlot.
  split; [|split].
  - intro H. apply truthy_iff in H. rewrite H. split; reflexivity.
  - intro H. rewrite H. split; reflexivity.
  - intros H H'. apply truthy_iff in H, H'. rewrite H, H'. reflexivity.
Qed.
End SaveManagerExtras.

(** ** Instances of the properties above *)

Lemma debt_summary_counts_active_loans_witness :
  ManageLoans.totalDebt [MoreExamples.loan ManageLoans.active] == 8000.
Proof.
  destruct (proj1 (proj2 (proj2
              (debt_summary_counts_active_loans
                 (MoreExamples.loan ManageLoans.active) [] [])))
              eq_refl) as [H _].
  exact H.
Defined.

Lemma loanName_never_empty_witness :
  ManageLoans.loanName [Examples.exampleOffer]
                       (MoreExamples.loan ManageLoans.active)
  = "Small Business Loan"%string.
Proof.
  apply (proj1 (proj1 (proj2 (loanName_never_empty
                                [Examples.exampleOffer]
                                (MoreExamples.loan ManageLoans.active)))
                      Examples.exampleOffer eq_refl)).
  discriminate.
Defined.

Lemma outcome_agrees_with_colour_witness :
  Productions.boxOfficeColor (MoreExamples.releasedMovie 30000000)
  = "text-green-600"%string.
Proof.
  assert (Hb : 0 < Productions.budget (MoreExamples.releasedMovie 30000000))
    by reflexivity.
  apply (proj1 (outcome_agrees_with_colour
                  (MoreExamples.releasedMovie 30000000)
                  (Productions.getOutcomeLabel 30000000 10000000)
                  Hb eq_refl)).
  right. right. left. reflexivity.
Defined.

Lemma production_progress_bounds_witness :
  (0 <= Productions.secondsRemaining MoreExamples.movieInProduction
          1700000005000)%Z.
Proof.
  assert (Hp : 0 < Productions.productionTime MoreExamples.movieInProduction)
    by reflexivity.
  exact (proj1 (proj2 (production_progress_bounds
                         MoreExamples.movieInProduction 1700000005000
                         eq_refl Hp))).
Defined.

Lemma groupedCompanies_by_industry_witness :
  NoDup (map fst [("Technology"%string,
                   [Examples.listed "ACME" 1000000 10 40])]).
Proof.
  apply (proj2 (groupedCompanies_by_industry
                  MoreExamples.objectPrototype RealCompaniesModal.all
                  [Examples.listed "ACME" 1000000 10 40]) _ eq_refl).
Defined.

Lemma portfolio_totals_from_cards_witness :
  0 <= RealCompaniesModal.portfolioValue
         [Examples.listed "ACME" 1000000 10 40].
Proof.
  apply (proj2 (proj2 (proj2 (portfolio_totals_from_cards
                                [Examples.listed "ACME" 1000000 10 40])))).
  intros c [<-|[]]. vm_compute. discriminate.
Defined.

Lemma create_request_guard_witness :
  CreateCompanyModal.clickIndustry (MoreExamples.createProps 500)
    CreateCompanyModal.initialState MoreExamples.bakery
  = CreateCompanyModal.initialState.
Proof.
  apply (proj2 (proj2 (proj2 (proj2
           (create_request_guard (fun n => n) (MoreExamples.createProps 500)
              CreateCompanyModal.initialState))))).
  reflexivity.
Defined.

Lemma new_slot_ignores_typed_name_witness :
  SaveManager.calls
    (SaveManager.handleCreateNewSlot (fun n => n) "1700000000000"
       (MoreExamples.namingSlot "Alpha"))
  = SaveManager.calls
      (SaveManager.handleCreateNewSlot (fun n => n) "1700000000000"
         (MoreExamples.namingSlot "Beta")).
Proof.
  apply (proj2 (proj2 (new_slot_ignores_typed_name (fun n => n)
                         "1700000000000" (MoreExamples.namingSlot "Alpha")
                         (MoreExamples.namingSlot "Beta"))));
    discriminate.
Defined.
